(** * cura/Settings/ExtruderStack.py

    A shallow embedding of [ExtruderStack] and of the part of its
    collaborators that it calls, followed by the properties of property
    resolution ([getProperty]), of linking ([setNextStack], [deserialize])
    and of [_getMachineDefinition].

    Python objects live in a store and are named by references; the methods
    that mutate objects are written in a state monad over that store, the
    read-only ones are functions of the store. *)

From Stdlib Require Import ZArith Lia.
From stdpp Require Import base option list gmap strings pretty.

Local Open Scope string_scope.

(** ** Python values *)

Module Py.

(** The values a setting property can hold ([Any] in the source). *)
Inductive PyVal : Type :=
| PyNone
| PyBool (b : bool)
| PyInt (z : Z)
| PyStr (s : string).

Global Instance PyVal_eq_dec : EqDecision PyVal.
Proof. solve_decision. Defined.

(** [bool(v)], as used by [if not v]. *)
Definition truthy (v : PyVal) : bool :=
  match v with
  | PyNone => false
  | PyBool b => b
  | PyInt z => negb (Z.eqb z 0)
  | PyStr s => negb (String.eqb s EmptyString)
  end.

(** [str(v)]. *)
Definition str (v : PyVal) : string :=
  match v with
  | PyNone => "None"
  | PyBool true => "True"
  | PyBool false => "False"
  | PyInt z => pretty z
  | PyStr s => s
  end.

(** [v is not None]. *)
Definition is_not_None (v : PyVal) : bool :=
  match v with
  | PyNone => false
  | _ => true
  end.

(** [v != s] for a string literal [s]: only a string can be equal to it. *)
Definition ne_str (v : PyVal) (s : string) : bool :=
  match v with
  | PyStr s' => negb (String.eqb s' s)
  | _ => true
  end.

End Py.
Export Py.

(** ** Objects and the store *)

(** References to [ExtruderStack] and to [GlobalStack] objects. *)
Abbreviation eref := nat (only parsing).
Abbreviation gref := nat (only parsing).

(** One configuration layer of a stack: the property values it holds, by
    setting key and property name. *)
Abbreviation Container := (gmap (string * string) PyVal) (only parsing).

(** The attributes of an [ExtruderStack] object: [self.id], the metadata
    dictionary, the layers, and [self._next_stack]. *)
Record ExtruderStack : Type := mkExtruderStack {
  es_id : string;
  es_metadata : gmap string string;
  es_containers : list Container;
  es_next_stack : option gref
}.

(** The attributes of a parent stack that the sub-unit reads: [stack.id],
    its layers, [stack.extruders] (keyed by position; the key [None] is
    Python's [None], the position of a sub-unit that has none) and the
    machine definition its accessor returns. *)
Record GlobalStack : Type := mkGlobalStack {
  gs_id : string;
  gs_containers : list Container;
  gs_extruders : gmap (option string) eref;
  gs_definition : string
}.

(** Calls made on the collaborators, most recent last. *)
Inductive Call : Type :=
| CallSetNextStack (self : eref) (stack : gref)
| CallAddExtruder (stack : gref) (self : eref)
| CallAddMetaDataEntry (self : eref) (key value : string)
| CallRegisterExtruder (self : eref) (machine_id : string)
| CallDeserialize (self : eref) (contents : string).

(** The store: the objects, the two singletons ([ContainerRegistry] and
    [ExtruderManager]) and the record of the calls made so far. *)
Record Store : Type := mkStore {
  extruder_stacks : gmap eref ExtruderStack;
  global_stacks : gmap gref GlobalStack;
  container_registry : list gref;
  extruder_manager : gmap eref string;
  calls : list Call
}.

Inductive Exception : Type :=
| NoGlobalStackError (message : string).

Inductive Outcome (A : Type) : Type :=
| Return (a : A)
| Raise (e : Exception).
Arguments Return {A} a.
Arguments Raise {A} e.

(** A computation on the store. It yields no result ([None]) only where the
    store holds a reference to no object, which Python excludes. An
    exception keeps the changes made before it was raised. *)
Definition M (A : Type) : Type := Store -> option (Outcome A * Store).

Definition ret {A : Type} (a : A) : M A :=
  fun s => Some (Return a, s).

Definition raise {A : Type} (e : Exception) : M A :=
  fun s => Some (Raise e, s).

Definition bind {A B : Type} (m : M A) (k : A -> M B) : M B :=
  fun s =>
    match m s with
    | Some (Return a, s') => k a s'
    | Some (Raise e, s') => Some (Raise e, s')
    | None => None
    end.

Global Instance M_ret : MRet M := @ret.
Global Instance M_bind : MBind M := fun A B k m => bind m k.

Definition get_extruder (self : eref) : M ExtruderStack :=
  fun s => match extruder_stacks s !! self with
           | Some this => Some (Return this, s)
           | None => None
           end.

Definition get_global (stack : gref) : M GlobalStack :=
  fun s => match global_stacks s !! stack with
           | Some g => Some (Return g, s)
           | None => None
           end.

Definition set_extruder (self : eref) (this : ExtruderStack) : M unit :=
  fun s => Some (Return tt,
                 mkStore (<[self := this]> (extruder_stacks s)) (global_stacks s)
                         (container_registry s) (extruder_manager s) (calls s)).

Definition set_global (stack : gref) (g : GlobalStack) : M unit :=
  fun s => Some (Return tt,
                 mkStore (extruder_stacks s) (<[stack := g]> (global_stacks s))
                         (container_registry s) (extruder_manager s) (calls s)).

Definition log_call (c : Call) : M unit :=
  fun s => Some (Return tt,
                 mkStore (extruder_stacks s) (global_stacks s)
                         (container_registry s) (extruder_manager s) (calls s ++ [c])).

Definition get_extruder_manager : M (gmap eref string) :=
  fun s => Some (Return (extruder_manager s), s).

Definition set_extruder_manager (m : gmap eref string) : M unit :=
  fun s => Some (Return tt,
                 mkStore (extruder_stacks s) (global_stacks s)
                         (container_registry s) m (calls s)).

Definition get_container_registry : M (list gref) :=
  fun s => Some (Return (container_registry s), s).

Definition get_global_stacks : M (gmap gref GlobalStack) :=
  fun s => Some (Return (global_stacks s), s).

(** ** The collaborators *)

(** Modelled from the spec: [ContainerStack.getProperty], the base lookup
    that [super().getProperty] reaches. It is missing from the sources; the
    spec has it resolve (key, property) across the stack's own layers: the
    first layer that holds a value other than [None] gives the result, and
    the result is [None] where no layer does. *)
Fixpoint ContainerStack_getProperty (containers : list Container)
    (key property_name : string) : PyVal :=
  match containers with
  | [] => PyNone
  | c :: rest =>
      match c !! (key, property_name) with
      | Some v =>
          if is_not_None v then v
          else ContainerStack_getProperty rest key property_name
      | None => ContainerStack_getProperty rest key property_name
      end
  end.

(** Modelled from the spec: the parent's [getProperty], missing from the
    sources; the spec gives the parent "the same property-resolution
    contract as a generic layered stack". *)
Definition GlobalStack_getProperty (g : GlobalStack)
    (key property_name : string) : PyVal :=
  ContainerStack_getProperty (gs_containers g) key property_name.

(** Modelled from the spec: the parent's machine-definition accessor,
    missing from the sources. *)
Definition GlobalStack_getMachineDefinition (g : GlobalStack) : M string :=
  ret (gs_definition g).

(** Modelled from the spec: [getMetaDataEntry(name)] of the base stack,
    missing from the sources: a metadata read, [None] where the entry is
    absent. *)
Definition getMetaDataEntry (this : ExtruderStack) (name : string)
    : option string :=
  es_metadata this !! name.

(** [getMetaDataEntry(name, default)]. *)
Definition getMetaDataEntry_default (this : ExtruderStack)
    (name default : string) : string :=
  match getMetaDataEntry this name with
  | Some v => v
  | None => default
  end.

(** Modelled from the spec: [addMetaDataEntry(name, value)] of the base
    stack, missing from the sources: "metadata write". *)
Definition addMetaDataEntry (self : eref) (key value : string) : M unit :=
  log_call (CallAddMetaDataEntry self key value);;
  this ← get_extruder self;
  set_extruder self
    (mkExtruderStack (es_id this) (<[key := value]> (es_metadata this))
                     (es_containers this) (es_next_stack this)).

(** Modelled from the spec: [ContainerStack.setNextStack], missing from the
    sources: "store the parent reference as this sub-unit's sole parent". *)
Definition ContainerStack_setNextStack (self : eref) (stack : gref) : M unit :=
  log_call (CallSetNextStack self stack);;
  this ← get_extruder self;
  set_extruder self
    (mkExtruderStack (es_id this) (es_metadata this)
                     (es_containers this) (Some stack)).

(** [ContainerStack.getNextStack]: reads [self._next_stack]. *)
Definition ContainerStack_getNextStack (self : eref) : M (option gref) :=
  this ← get_extruder self;
  ret (es_next_stack this).

(** Modelled from the spec: the parent's [addExtruder], missing from the
    sources: it adds the sub-unit to the parent's collection, which is
    addressed by position. *)
Definition GlobalStack_addExtruder (stack : gref) (extruder : eref) : M unit :=
  log_call (CallAddExtruder stack extruder);;
  e ← get_extruder extruder;
  g ← get_global stack;
  set_global stack
    (mkGlobalStack (gs_id g) (gs_containers g)
                   (<[getMetaDataEntry e "position" := extruder]> (gs_extruders g))
                   (gs_definition g)).

(** Modelled from the spec: [ExtruderManager.registerExtruder], missing
    from the sources: it records the (sub-unit, parent identifier) pair; a
    sub-unit is registered with one parent at a time. *)
Definition ExtruderManager_registerExtruder (self : eref)
    (machine_id : string) : M unit :=
  log_call (CallRegisterExtruder self machine_id);;
  m ← get_extruder_manager;
  set_extruder_manager (<[self := machine_id]> m).

(** Modelled from the spec: [ContainerRegistry.findContainerStacks(id=...)],
    missing from the sources: the registered stacks that have the
    identifier, in the registry's order. *)
Definition findContainerStacks (id : string) : M (list gref) :=
  registry ← get_container_registry;
  globals ← get_global_stacks;
  ret (List.filter
         (fun r => match globals !! r with
                   | Some g => String.eqb (gs_id g) id
                   | None => false
                   end)
         registry).

(** ** ExtruderStack *)

(** The message of the exception raised for a sub-unit without a parent:
    ["Extruder {id} is missing the next stack!".format(id = self.id)]. *)
Definition missing_next_stack (id : string) : string :=
  "Extruder " +:+ id +:+ " is missing the next stack!".

(** Modelled from the spec: the base constructor that [super().__init__]
    reaches, missing from the sources: the stack "is constructed fresh",
    with its identifier, no metadata, no layer and no parent. *)
Definition ContainerStack_init (self : eref) (container_id : string) : M unit :=
  set_extruder self (mkExtruderStack container_id ∅ [] None).

(** [ExtruderStack.__init__]: the base constructor, then the type stamp. *)
Definition init (self : eref) (container_id : string) : M unit :=
  ContainerStack_init self container_id;;
  addMetaDataEntry self "type" "extruder_train".

(** [ExtruderStack.setNextStack]. *)
Definition setNextStack (self : eref) (stack : gref) : M unit :=
  ContainerStack_setNextStack self stack;;
  GlobalStack_addExtruder stack self;;
  g ← get_global stack;
  addMetaDataEntry self "machine" (gs_id g);;
  g' ← get_global stack;
  ExtruderManager_registerExtruder self (gs_id g').

(** [ExtruderStack.getNextStack]. *)
Definition getNextStack (self : eref) : M (option gref) :=
  ContainerStack_getNextStack self.

(** [ExtruderStack.getLoadingPriority]. *)
Definition getLoadingPriority : Z := 3.

(** The first half of the source's second [if], the test against the
    sentinel: [limit_to_extruder is not None and limit_to_extruder != "-1"]. *)
Definition has_limit (limit_to_extruder : PyVal) : bool :=
  is_not_None limit_to_extruder && ne_str limit_to_extruder "-1".

(** The condition of the source's second [if]: the marker is set, is not
    the string ["-1"], and names another position than the stack's own. *)
Definition redirects (this : ExtruderStack) (limit_to_extruder : PyVal) : bool :=
  has_limit limit_to_extruder
  && negb (bool_decide (getMetaDataEntry this "position"
                        = Some (Py.str limit_to_extruder))).

(** [super().getProperty(key, property_name)]: the base lookup on the
    stack's own layers. *)
Definition super_getProperty (this : ExtruderStack)
    (key property_name : string) : PyVal :=
  ContainerStack_getProperty (es_containers this) key property_name.

(** [ExtruderStack.getProperty]. The call on the sibling is a call of this
    same method, so the function recurses; [fuel] bounds the depth of the
    calls, and [None] is the result where it does not suffice (or where a
    reference names no object). *)
Fixpoint getProperty (fuel : nat) (s : Store) (self : eref)
    (key property_name : string) : option (Outcome PyVal) :=
  match fuel with
  | O => None
  | S fuel' =>
      this ← extruder_stacks s !! self;
      match es_next_stack this with
      | None => Some (Raise (NoGlobalStackError (missing_next_stack (es_id this))))
      | Some next =>
          if negb (truthy (super_getProperty this key "settable_per_extruder")) then
            g ← global_stacks s !! next;
            Some (Return (GlobalStack_getProperty g key property_name))
          else
            let limit_to_extruder := super_getProperty this key "limit_to_extruder" in
            if redirects this limit_to_extruder then
              g ← global_stacks s !! next;
              match gs_extruders g !! Some (Py.str limit_to_extruder) with
              | Some sibling =>
                  r ← getProperty fuel' s sibling key property_name;
                  match r with
                  | Raise e => Some (Raise e)
                  | Return result =>
                      if is_not_None result then Some (Return result)
                      else Some (Return (super_getProperty this key property_name))
                  end
              | None => Some (Return (super_getProperty this key property_name))
              end
            else Some (Return (super_getProperty this key property_name))
      end
  end.

(** [ExtruderStack._getMachineDefinition]. *)
Definition _getMachineDefinition (self : eref) : M string :=
  next ← getNextStack self;
  match next with
  | None =>
      this ← get_extruder self;
      raise (NoGlobalStackError (missing_next_stack (es_id this)))
  | Some stack =>
      g ← get_global stack;
      GlobalStack_getMachineDefinition g
  end.

(** What the base class reads from persisted text: the metadata and the
    layers. *)
Record Persisted : Type := mkPersisted {
  p_metadata : gmap string string;
  p_containers : list Container
}.

Section Deserialize.

(** The format of the persisted text belongs to the base class. *)
Variable parse : string -> Persisted.

(** Modelled from the spec: the base [deserialize], missing from the
    sources: it "parses persisted layer content into the stack's internal
    layers", metadata included; the link to a parent is not part of the
    text. *)
Definition ContainerStack_deserialize (self : eref) (contents : string) : M unit :=
  log_call (CallDeserialize self contents);;
  this ← get_extruder self;
  set_extruder self
    (mkExtruderStack (es_id this) (p_metadata (parse contents))
                     (p_containers (parse contents)) (es_next_stack this)).

(** [ExtruderStack.deserialize]. *)
Definition deserialize (self : eref) (contents : string) : M unit :=
  ContainerStack_deserialize self contents;;
  this ← get_extruder self;
  stacks ← findContainerStacks (getMetaDataEntry_default this "machine" EmptyString);
  match stacks with
  | [] => ret tt
  | stack :: _ => setNextStack self stack
  end.

End Deserialize.

(** ** Vocabulary of the statements *)

(** The sub-unit [self], with attributes [this], is linked to the parent
    [next], with attributes [g]. *)
Definition linked (s : Store) (self : eref) (this : ExtruderStack)
    (next : gref) (g : GlobalStack) : Prop :=
  extruder_stacks s !! self = Some this
  /\ es_next_stack this = Some next
  /\ global_stacks s !! next = Some g.

(** The sub-unit [self], with attributes [this], has no parent. *)
Definition unlinked (s : Store) (self : eref) (this : ExtruderStack) : Prop :=
  extruder_stacks s !! self = Some this /\ es_next_stack this = None.

(** The call [self.getProperty(key, property_name)] ends with outcome [r]. *)
Definition getProperty_ends (s : Store) (self : eref)
    (key property_name : string) (r : Outcome PyVal) : Prop :=
  exists fuel, getProperty fuel s self key property_name = Some r.

(** Linking to each parent of a list in turn. *)
Fixpoint link_all (self : eref) (stacks : list gref) : M unit :=
  match stacks with
  | [] => ret tt
  | stack :: rest => setNextStack self stack;; link_all self rest
  end.

(** The four calls of one [setNextStack], in the order of the source. *)
Definition link_calls (self : eref) (stack : gref) (machine_id : string)
    : list Call :=
  [ CallSetNextStack self stack;
    CallAddExtruder stack self;
    CallAddMetaDataEntry self "machine" machine_id;
    CallRegisterExtruder self machine_id ].

(** For [key], the sub-unit [a] asks the sub-unit [b] first: [a] is linked,
    its own data marks the key settable per extruder, the condition of
    redirection holds, and [b] is what the parent's collection holds under
    the marker's position. *)
Definition redirects_to (s : Store) (key : string) (a b : eref) : Prop :=
  exists (this : ExtruderStack) (next : gref) (g : GlobalStack),
    linked s a this next g
    /\ truthy (super_getProperty this key "settable_per_extruder") = true
    /\ redirects this (super_getProperty this key "limit_to_extruder") = true
    /\ gs_extruders g
         !! Some (Py.str (super_getProperty this key "limit_to_extruder"))
       = Some b.

(** The identifier that [deserialize] looks up for a persisted text: its
    [machine] metadata entry, the empty string where there is none. *)
Definition persisted_machine (parse : string -> Persisted) (contents : string)
    : string :=
  match p_metadata (parse contents) !! "machine" with
  | Some id => id
  | None => EmptyString
  end.

(** The sub-unit as the base deserialization leaves it. *)
Definition loaded_stack (parse : string -> Persisted) (this : ExtruderStack)
    (contents : string) : ExtruderStack :=
  mkExtruderStack (es_id this) (p_metadata (parse contents))
                  (p_containers (parse contents)) (es_next_stack this).

(** The stacks of the registry that have identifier [id], in order. *)
Definition registered_with_id (s : Store) (id : string) : list gref :=
  List.filter
    (fun r => match global_stacks s !! r with
              | Some g => String.eqb (gs_id g) id
              | None => false
              end)
    (container_registry s).

(** ** A machine with two sub-units, and a spare one *)

Module Scenario.

Definition machine_layer : Container :=
  list_to_map
    [ (("layer_height", "value"), PyStr "0.1");
      (("wall_thickness", "value"), PyStr "1.0") ].

(** The parent, with the sub-units at positions "0" and "1". *)
Definition machine : GlobalStack :=
  mkGlobalStack "M1" [machine_layer]
    (list_to_map [ (Some "0", 1); (Some "1", 2) ]) "fdmprinter".

Definition other_machine : GlobalStack :=
  mkGlobalStack "M2" [] ∅ "delta".

(** A parent that has a sub-unit under the position "-1". *)
Definition odd_machine : GlobalStack :=
  mkGlobalStack "M3" [] (list_to_map [ (Some "-1", 2) ]) "delta".

Definition left_layer : Container :=
  list_to_map
    [ (("layer_height", "settable_per_extruder"), PyBool false);
      (("layer_height", "value"), PyStr "0.3");
      (("wall_thickness", "settable_per_extruder"), PyBool true);
      (("wall_thickness", "value"), PyStr "0.8");
      (("support_pattern", "settable_per_extruder"), PyBool true);
      (("support_pattern", "limit_to_extruder"), PyStr "1");
      (("support_pattern", "value"), PyStr "lines");
      (("infill_pattern", "settable_per_extruder"), PyBool true);
      (("infill_pattern", "limit_to_extruder"), PyStr "1");
      (("infill_pattern", "value"), PyStr "grid");
      (("prime_tower_size", "settable_per_extruder"), PyBool true);
      (("prime_tower_size", "limit_to_extruder"), PyStr "7");
      (("prime_tower_size", "value"), PyInt 20);
      (("brim_width", "settable_per_extruder"), PyBool true);
      (("brim_width", "limit_to_extruder"), PyStr "-1");
      (("brim_width", "value"), PyInt 8);
      (("raft_speed", "settable_per_extruder"), PyBool true);
      (("raft_speed", "limit_to_extruder"), PyInt (-1));
      (("raft_speed", "value"), PyInt 30) ].

Definition right_layer : Container :=
  list_to_map
    [ (("wall_thickness", "settable_per_extruder"), PyBool true);
      (("wall_thickness", "value"), PyStr "1.2");
      (("support_pattern", "settable_per_extruder"), PyBool true);
      (("support_pattern", "value"), PyStr "zigzag");
      (("infill_pattern", "settable_per_extruder"), PyBool true);
      (("raft_speed", "settable_per_extruder"), PyBool true);
      (("raft_speed", "value"), PyInt 45) ].

Definition left : ExtruderStack :=
  mkExtruderStack "left"
    (list_to_map [ ("type", "extruder_train"); ("position", "0"); ("machine", "M1") ])
    [left_layer] (Some 10).

Definition right : ExtruderStack :=
  mkExtruderStack "right"
    (list_to_map [ ("type", "extruder_train"); ("position", "1"); ("machine", "M1") ])
    [right_layer] (Some 10).

(** A sub-unit with the data of [left] and no parent. *)
Definition spare : ExtruderStack :=
  mkExtruderStack "spare"
    (list_to_map [ ("type", "extruder_train"); ("position", "2") ])
    [left_layer] None.

(** A sub-unit with the data of [left], linked to [odd_machine]. *)
Definition odd : ExtruderStack :=
  mkExtruderStack "odd"
    (list_to_map [ ("type", "extruder_train"); ("position", "0"); ("machine", "M3") ])
    [left_layer] (Some 12).

Definition store : Store :=
  mkStore (list_to_map [ (1, left); (2, right); (3, spare); (4, odd) ])
          (list_to_map [ (10, machine); (11, other_machine); (12, odd_machine) ])
          [10; 11; 12]
          (list_to_map [ (1, "M1"); (2, "M1") ])
          [].

(** A reader of persisted text that knows one file. *)
Definition parse (contents : string) : Persisted :=
  if String.eqb contents "[metadata] position = 2, machine = M1"
  then mkPersisted (list_to_map [ ("position", "2"); ("machine", "M1") ])
                   [left_layer]
  else mkPersisted ∅ [].

End Scenario.

(** ** A printer with stale and circular settings *)

Module Workshop.

Definition printer_layer : Container :=
  list_to_map
    [ (("layer_height", "value"), PyStr "0.2");
      (("fan_speed", "value"), PyInt 100) ].

Definition bench_layer : Container :=
  list_to_map [ (("fan_speed", "value"), PyInt 55) ].

(** The printer lists five sub-units; the one under "3" was never linked,
    the one under "5" has been linked to the bench since. *)
Definition printer : GlobalStack :=
  mkGlobalStack "P1" [printer_layer]
    (list_to_map [ (Some "0", 1); (Some "1", 2); (Some "2", 3);
                   (Some "3", 4); (Some "5", 5) ])
    "fdmprinter".

Definition bench : GlobalStack :=
  mkGlobalStack "P2" [bench_layer] ∅ "fdmprinter".

Definition a_layer : Container :=
  list_to_map
    [ (("layer_height", "settable_per_extruder"), PyInt 0);
      (("layer_height", "value"), PyStr "0.3");
      (("ping", "settable_per_extruder"), PyBool true);
      (("ping", "limit_to_extruder"), PyStr "1");
      (("chain", "settable_per_extruder"), PyBool true);
      (("chain", "limit_to_extruder"), PyStr "1");
      (("shared", "settable_per_extruder"), PyBool true);
      (("shared", "limit_to_extruder"), PyStr "1");
      (("shared", "value"), PyStr "A");
      (("orphan", "settable_per_extruder"), PyBool true);
      (("orphan", "limit_to_extruder"), PyStr "3");
      (("orphan", "value"), PyStr "mine");
      (("fan_speed", "settable_per_extruder"), PyBool true);
      (("fan_speed", "limit_to_extruder"), PyStr "5");
      (("fan_speed", "value"), PyInt 30) ].

Definition b_layer : Container :=
  list_to_map
    [ (("ping", "settable_per_extruder"), PyBool true);
      (("ping", "limit_to_extruder"), PyStr "0");
      (("chain", "settable_per_extruder"), PyBool true);
      (("chain", "limit_to_extruder"), PyStr "2");
      (("shared", "settable_per_extruder"), PyBool true);
      (("shared", "limit_to_extruder"), PyStr "1");
      (("shared", "value"), PyStr "B") ].

Definition c_layer : Container :=
  list_to_map
    [ (("chain", "settable_per_extruder"), PyBool true);
      (("chain", "value"), PyStr "end") ].

Definition unit_at (id position : string) (layer : Container)
    (next : option gref) : ExtruderStack :=
  mkExtruderStack id
    (list_to_map [ ("type", "extruder_train"); ("position", position) ])
    [layer] next.

Definition a : ExtruderStack := unit_at "a" "0" a_layer (Some 20).
Definition b : ExtruderStack := unit_at "b" "1" b_layer (Some 20).
Definition c : ExtruderStack := unit_at "c" "2" c_layer (Some 20).
Definition d : ExtruderStack := unit_at "d" "3" ∅ None.
Definition e : ExtruderStack := unit_at "e" "5" ∅ (Some 21).

Definition store : Store :=
  mkStore (list_to_map [ (1, a); (2, b); (3, c); (4, d); (5, e) ])
          (list_to_map [ (20, printer); (21, bench) ])
          [20; 21] ∅ [].

End Workshop.

(** ** A sub-unit at the position "-1" *)

Module Sentinel.

Definition minus_layer : Container :=
  list_to_map
    [ (("raft_speed", "settable_per_extruder"), PyBool true);
      (("raft_speed", "limit_to_extruder"), PyInt (-1));
      (("raft_speed", "value"), PyInt 30) ].

Definition sibling_layer : Container :=
  list_to_map
    [ (("raft_speed", "settable_per_extruder"), PyBool true);
      (("raft_speed", "value"), PyInt 45) ].

(** The parent holds the second sub-unit under the position "-1". *)
Definition parent : GlobalStack :=
  mkGlobalStack "M1" [] (list_to_map [ (Some "-1", 2) ]) "fdmprinter".

(** The sub-unit asked: its own position is "-1", its marker the integer. *)
Definition minus : ExtruderStack :=
  mkExtruderStack "minus"
    (list_to_map [ ("type", "extruder_train"); ("position", "-1"); ("machine", "M1") ])
    [minus_layer] (Some 30).

Definition sibling : ExtruderStack :=
  mkExtruderStack "sibling"
    (list_to_map [ ("type", "extruder_train"); ("position", "1"); ("machine", "M1") ])
    [sibling_layer] (Some 30).

Definition store : Store :=
  mkStore (list_to_map [ (1, minus); (2, sibling) ])
          (list_to_map [ (30, parent) ])
          [30]
          (list_to_map [ (1, "M1"); (2, "M1") ])
          [].

End Sentinel.

(** ** Python values *)

Example str_minus_one : Py.str (PyInt (-1)) = "-1".
Proof. reflexivity. Qed.

Example str_forty_two : Py.str (PyInt 42) = "42".
Proof. reflexivity. Qed.

Example integer_is_not_the_sentinel : has_limit (PyInt (-1)) = true.
Proof. reflexivity. Qed.

Example string_is_the_sentinel : has_limit (PyStr "-1") = false.
Proof. reflexivity. Qed.

(** ** Property resolution *)

(** More fuel does not change a result. *)
Lemma getProperty_mono (s : Store) (key property_name : string) :
  forall (fuel : nat) (self : eref) (r : Outcome PyVal),
    getProperty fuel s self key property_name = Some r ->
    forall fuel', fuel <= fuel' ->
      getProperty fuel' s self key property_name = Some r.
Proof.
  induction fuel as [|fuel IH]; intros self r Hr fuel' Hle; [discriminate|].
  destruct fuel' as [|fuel']; [lia|].
  simpl in *.
  destruct (extruder_stacks s !! self) as [this|]; simpl in *; [|discriminate].
  destruct (es_next_stack this) as [next|]; [|assumption].
  destruct (negb _); [assumption|].
  destruct (redirects _ _); [|assumption].
  destruct (global_stacks s !! next) as [g|]; simpl in *; [|discriminate].
  destruct (gs_extruders g !! _) as [sibling|]; [|assumption].
  destruct (getProperty fuel s sibling key property_name) as [r'|] eqn:Hs;
    simpl in *; [|discriminate].
  rewrite (IH sibling r' Hs fuel') by lia. simpl. assumption.
Qed.

(** A call has at most one outcome. *)
Lemma getProperty_ends_unique (s : Store) (self : eref)
    (key property_name : string) (r1 r2 : Outcome PyVal) :
  getProperty_ends s self key property_name r1 ->
  getProperty_ends s self key property_name r2 ->
  r1 = r2.
Proof.
  intros [n1 H1] [n2 H2].
  pose proof (getProperty_mono _ _ _ _ _ _ H1 (n1 + n2) ltac:(lia)) as E1.
  pose proof (getProperty_mono _ _ _ _ _ _ H2 (n1 + n2) ltac:(lia)) as E2.
  congruence.
Qed.

(** The first [if] of the source succeeds on every falsy value. *)
Lemma getProperty_falsy (s : Store) (self : eref) (this : ExtruderStack)
    (next : gref) (g : GlobalStack) (key property_name : string) (fuel : nat) :
  linked s self this next g ->
  truthy (super_getProperty this key "settable_per_extruder") = false ->
  getProperty (S fuel) s self key property_name
  = Some (Return (GlobalStack_getProperty g key property_name)).
Proof.
  intros (Hself & Hnext & Hg) Hfalsy. simpl.
  rewrite Hself. simpl. rewrite Hnext, Hfalsy. simpl. rewrite Hg. reflexivity.
Qed.

(** Without redirection the result is the local one. *)
Lemma getProperty_local (s : Store) (self : eref) (this : ExtruderStack)
    (next : gref) (key property_name : string) (fuel : nat) :
  extruder_stacks s !! self = Some this ->
  es_next_stack this = Some next ->
  truthy (super_getProperty this key "settable_per_extruder") = true ->
  redirects this (super_getProperty this key "limit_to_extruder") = false ->
  getProperty (S fuel) s self key property_name
  = Some (Return (super_getProperty this key property_name)).
Proof.
  intros Hself Hnext Htrue Hred. simpl.
  rewrite Hself. simpl. rewrite Hnext, Htrue. simpl. rewrite Hred. reflexivity.
Qed.

(** With redirection the sibling is asked first. *)
Lemma getProperty_redirect (s : Store) (self : eref) (this : ExtruderStack)
    (next : gref) (g : GlobalStack) (key property_name : string) (fuel : nat) :
  linked s self this next g ->
  truthy (super_getProperty this key "settable_per_extruder") = true ->
  redirects this (super_getProperty this key "limit_to_extruder") = true ->
  getProperty (S fuel) s self key property_name
  = match gs_extruders g
          !! Some (Py.str (super_getProperty this key "limit_to_extruder")) with
    | Some sibling =>
        match getProperty fuel s sibling key property_name with
        | Some (Raise e) => Some (Raise e)
        | Some (Return result) =>
            if is_not_None result then Some (Return result)
            else Some (Return (super_getProperty this key property_name))
        | None => None
        end
    | None => Some (Return (super_getProperty this key property_name))
    end.
Proof.
  intros (Hself & Hnext & Hg) Htrue Hred. simpl.
  rewrite Hself. simpl. rewrite Hnext, Htrue. simpl. rewrite Hred, Hg. simpl.
  destruct (gs_extruders g !! _) as [sibling|]; [|reflexivity].
  destruct (getProperty fuel s sibling key property_name) as [[v|e]|];
    reflexivity.
Qed.

(** The condition of redirection, read off its three tests. *)
Lemma redirects_true (this : ExtruderStack) (L : PyVal) :
  redirects this L = true
  <-> L <> PyNone /\ L <> PyStr "-1"
      /\ getMetaDataEntry this "position" <> Some (Py.str L).
Proof.
  unfold redirects, has_limit.
  rewrite !andb_true_iff, negb_true_iff, bool_decide_eq_false.
  split.
  - intros [[H1 H2] H3]. repeat split; [| |assumption].
    + intros ->. discriminate.
    + intros ->. discriminate.
  - intros (H1 & H2 & H3). repeat split; [| |assumption].
    + destruct L; [congruence|reflexivity..].
    + destruct L as [|b|z|x]; try reflexivity. simpl.
      apply negb_true_iff, String.eqb_neq. congruence.
Qed.

(** The two sub-units of the machine each see their own wall thickness;
    the support pattern of the left one is the right one's. *)
Example left_wall_thickness :
  getProperty 1 Scenario.store 1 "wall_thickness" "value"
  = Some (Return (PyStr "0.8")).
Proof. reflexivity. Qed.

Example right_wall_thickness :
  getProperty 1 Scenario.store 2 "wall_thickness" "value"
  = Some (Return (PyStr "1.2")).
Proof. reflexivity. Qed.

Example left_support_pattern :
  getProperty 2 Scenario.store 1 "support_pattern" "value"
  = Some (Return (PyStr "zigzag")).
Proof. reflexivity. Qed.

(** The nested call needs its own unit of fuel. *)
Example left_support_pattern_shallow :
  getProperty 1 Scenario.store 1 "support_pattern" "value" = None.
Proof. reflexivity. Qed.

(** The integer -1 redirects to the position "-1", the string "-1" does
    not redirect. *)
Example odd_raft_speed :
  getProperty 2 Scenario.store 4 "raft_speed" "value"
  = Some (Return (PyInt 45)).
Proof. reflexivity. Qed.

Example odd_brim_width :
  getProperty 2 Scenario.store 4 "brim_width" "value"
  = Some (Return (PyInt 8)).
Proof. reflexivity. Qed.

(** A sub-unit without a parent raises, whatever is asked. *)
Lemma getProperty_unlinked (s : Store) (self : eref) (this : ExtruderStack)
    (key property_name : string) (fuel : nat) :
  unlinked s self this ->
  getProperty (S fuel) s self key property_name
  = Some (Raise (NoGlobalStackError (missing_next_stack (es_id this)))).
Proof.
  intros [Hself Hnext]. simpl. rewrite Hself. simpl. rewrite Hnext. reflexivity.
Qed.

(** A sibling that answers is believed. *)
Lemma getProperty_sibling_value (s : Store) (self : eref) (this : ExtruderStack)
    (next : gref) (g : GlobalStack) (key property_name : string)
    (sibling : eref) (v : PyVal) (fuel : nat) :
  linked s self this next g ->
  truthy (super_getProperty this key "settable_per_extruder") = true ->
  redirects this (super_getProperty this key "limit_to_extruder") = true ->
  gs_extruders g !! Some (Py.str (super_getProperty this key "limit_to_extruder"))
  = Some sibling ->
  getProperty fuel s sibling key property_name = Some (Return v) ->
  v <> PyNone ->
  getProperty (S fuel) s self key property_name = Some (Return v).
Proof.
  intros Hl Ht Hr Hsib Hv Hnn.
  rewrite (getProperty_redirect _ _ _ _ _ _ _ _ Hl Ht Hr), Hsib, Hv.
  destruct v; [congruence|reflexivity..].
Qed.

(** A sibling that answers [None] is not. *)
Lemma getProperty_sibling_None (s : Store) (self : eref) (this : ExtruderStack)
    (next : gref) (g : GlobalStack) (key property_name : string)
    (sibling : eref) (fuel : nat) :
  linked s self this next g ->
  truthy (super_getProperty this key "settable_per_extruder") = true ->
  redirects this (super_getProperty this key "limit_to_extruder") = true ->
  gs_extruders g !! Some (Py.str (super_getProperty this key "limit_to_extruder"))
  = Some sibling ->
  getProperty fuel s sibling key property_name = Some (Return PyNone) ->
  getProperty (S fuel) s self key property_name
  = Some (Return (super_getProperty this key property_name)).
Proof.
  intros Hl Ht Hr Hsib Hv.
  rewrite (getProperty_redirect _ _ _ _ _ _ _ _ Hl Ht Hr), Hsib, Hv.
  reflexivity.
Qed.

(** No sibling at the position: the local value. *)
Lemma getProperty_no_sibling (s : Store) (self : eref) (this : ExtruderStack)
    (next : gref) (g : GlobalStack) (key property_name : string) (fuel : nat) :
  linked s self this next g ->
  truthy (super_getProperty this key "settable_per_extruder") = true ->
  gs_extruders g !! Some (Py.str (super_getProperty this key "limit_to_extruder"))
  = None ->
  getProperty (S fuel) s self key property_name
  = Some (Return (super_getProperty this key property_name)).
Proof.
  intros Hl Ht Hsib.
  destruct (redirects this (super_getProperty this key "limit_to_extruder")) eqn:Hr.
  - rewrite (getProperty_redirect _ _ _ _ _ _ _ _ Hl Ht Hr), Hsib. reflexivity.
  - destruct Hl as (Hself & Hnext & _).
    exact (getProperty_local _ _ _ _ _ _ _ Hself Hnext Ht Hr).
Qed.

(** C1. For a linked sub-unit whose own data reports [settable_per_extruder]
    of the key as false or absent, [getProperty] returns exactly what the
    parent's [getProperty] returns for the same key and property name; the
    local value of the property plays no part. *)
Theorem getProperty_not_settable_per_extruder
    (s : Store) (self : eref) (this : ExtruderStack) (next : gref)
    (g : GlobalStack) (key property_name : string) (fuel : nat) :
  linked s self this next g ->
  super_getProperty this key "settable_per_extruder" = PyBool false
  \/ super_getProperty this key "settable_per_extruder" = PyNone ->
  getProperty (S fuel) s self key property_name
  = Some (Return (GlobalStack_getProperty g key property_name)).
Proof.
  intros Hl Hs. apply (getProperty_falsy _ _ _ _ _ _ _ _ Hl).
  destruct Hs as [-> | ->]; reflexivity.
Qed.

Lemma getProperty_not_settable_per_extruder_witness :
  getProperty 1 Scenario.store 1 "layer_height" "value"
  = Some (Return (PyStr "0.1")).
Proof.
  apply (getProperty_not_settable_per_extruder
           Scenario.store 1 Scenario.left 10 Scenario.machine
           "layer_height" "value" 0).
  - repeat split; reflexivity.
  - left. reflexivity.
Defined.

(** C2. For a linked sub-unit A whose own data marks the key settable per
    extruder and gives [limit_to_extruder] a value L that is not [None],
    not the string "-1" and, as a string, not A's own position: when the
    parent's collection holds a sibling B under [str(L)] and B's
    [getProperty] returns a value other than [None], A's [getProperty]
    returns that value, whatever A's own local value is. *)
Theorem getProperty_limit_to_extruder
    (s : Store) (A : eref) (a : ExtruderStack) (next : gref) (g : GlobalStack)
    (key property_name : string) (L : PyVal) (B : eref) (v : PyVal) :
  linked s A a next g ->
  truthy (super_getProperty a key "settable_per_extruder") = true ->
  super_getProperty a key "limit_to_extruder" = L ->
  L <> PyNone ->
  L <> PyStr "-1" ->
  getMetaDataEntry a "position" <> Some (Py.str L) ->
  gs_extruders g !! Some (Py.str L) = Some B ->
  getProperty_ends s B key property_name (Return v) ->
  v <> PyNone ->
  getProperty_ends s A key property_name (Return v).
Proof.
  intros Hl Ht HL H1 H2 H3 HB [fuel Hv] Hnn. subst L.
  exists (S fuel).
  apply (getProperty_sibling_value _ _ _ _ _ _ _ B v fuel Hl Ht); try assumption.
  apply redirects_true. auto.
Qed.

Lemma getProperty_limit_to_extruder_witness :
  getProperty_ends Scenario.store 1 "support_pattern" "value"
    (Return (PyStr "zigzag")).
Proof.
  apply (getProperty_limit_to_extruder
           Scenario.store 1 Scenario.left 10 Scenario.machine
           "support_pattern" "value" (PyStr "1") 2 (PyStr "zigzag")).
  - repeat split; reflexivity.
  - reflexivity.
  - reflexivity.
  - discriminate.
  - discriminate.
  - vm_compute. discriminate.
  - reflexivity.
  - exists 1. reflexivity.
  - discriminate.
Defined.

(** C3. For a linked sub-unit and a key its own data marks settable per
    extruder: when [limit_to_extruder] is absent, or is the string "-1", or
    is (as a string) the sub-unit's own position, [getProperty] returns the
    sub-unit's own local value. *)
Theorem getProperty_no_redirection
    (s : Store) (self : eref) (this : ExtruderStack) (next : gref)
    (g : GlobalStack) (key property_name : string) (L : PyVal) (fuel : nat) :
  linked s self this next g ->
  truthy (super_getProperty this key "settable_per_extruder") = true ->
  super_getProperty this key "limit_to_extruder" = L ->
  L = PyNone \/ L = PyStr "-1"
  \/ getMetaDataEntry this "position" = Some (Py.str L) ->
  getProperty (S fuel) s self key property_name
  = Some (Return (super_getProperty this key property_name)).
Proof.
  intros (Hself & Hnext & _) Ht HL Hno.
  apply (getProperty_local _ _ _ next _ _ _ Hself Hnext Ht).
  rewrite HL. apply not_true_is_false. intros Hr.
  apply redirects_true in Hr. destruct Hr as (H1 & H2 & H3).
  destruct Hno as [E | [E | E]]; congruence.
Qed.

Lemma getProperty_no_redirection_witness :
  getProperty 1 Scenario.store 1 "brim_width" "value" = Some (Return (PyInt 8)).
Proof.
  apply (getProperty_no_redirection
           Scenario.store 1 Scenario.left 10 Scenario.machine
           "brim_width" "value" (PyStr "-1") 0).
  - repeat split; reflexivity.
  - reflexivity.
  - reflexivity.
  - right. left. reflexivity.
Defined.

(** C4. For a linked sub-unit whose condition of redirection holds for the
    key (settable per extruder, marker L set, not "-1", not the own
    position): when the parent's collection has no sibling under [str(L)],
    or the sibling's [getProperty] returns [None], [getProperty] returns
    the sub-unit's own local value and raises nothing. *)
Theorem getProperty_redirection_fallback
    (s : Store) (A : eref) (a : ExtruderStack) (next : gref) (g : GlobalStack)
    (key property_name : string) (L : PyVal) :
  linked s A a next g ->
  truthy (super_getProperty a key "settable_per_extruder") = true ->
  super_getProperty a key "limit_to_extruder" = L ->
  L <> PyNone ->
  L <> PyStr "-1" ->
  getMetaDataEntry a "position" <> Some (Py.str L) ->
  gs_extruders g !! Some (Py.str L) = None
  \/ (exists B, gs_extruders g !! Some (Py.str L) = Some B
                /\ getProperty_ends s B key property_name (Return PyNone)) ->
  getProperty_ends s A key property_name
    (Return (super_getProperty a key property_name))
  /\ forall e, ~ getProperty_ends s A key property_name (Raise e).
Proof.
  intros Hl Ht HL H1 H2 H3 Hsib. subst L.
  assert (Hends : getProperty_ends s A key property_name
                    (Return (super_getProperty a key property_name))).
  { destruct Hsib as [Hnone | (B & HB & [fuel Hv])].
    - exists 1. apply (getProperty_no_sibling _ _ _ _ _ _ _ 0 Hl Ht Hnone).
    - exists (S fuel).
      apply (getProperty_sibling_None _ _ _ _ _ _ _ B fuel Hl Ht); try assumption.
      apply redirects_true. auto. }
  split; [exact Hends|].
  intros e He.
  pose proof (getProperty_ends_unique _ _ _ _ _ _ Hends He). discriminate.
Qed.

Lemma getProperty_redirection_fallback_witness :
  getProperty_ends Scenario.store 1 "infill_pattern" "value"
    (Return (PyStr "grid"))
  /\ forall e, ~ getProperty_ends Scenario.store 1 "infill_pattern" "value"
                  (Raise e).
Proof.
  apply (getProperty_redirection_fallback
           Scenario.store 1 Scenario.left 10 Scenario.machine
           "infill_pattern" "value" (PyStr "1")).
  - repeat split; reflexivity.
  - reflexivity.
  - reflexivity.
  - discriminate.
  - discriminate.
  - vm_compute. discriminate.
  - right. exists 2. split; [reflexivity|]. exists 1. reflexivity.
Defined.

(** C5. For a sub-unit without a parent, every key and every property
    name: [getProperty] raises [NoGlobalStackError] with a message that
    carries the sub-unit's identifier, and returns no value. Nothing else
    of the sub-unit or of the store is looked at: the outcome is the same
    whatever the layers, the metadata and the rest of the store hold, and
    needs no nested call. *)
Theorem getProperty_unlinked_raises
    (s : Store) (self : eref) (this : ExtruderStack)
    (key property_name : string) :
  unlinked s self this ->
  (forall fuel,
      getProperty (S fuel) s self key property_name
      = Some (Raise (NoGlobalStackError
                       ("Extruder " +:+ es_id this +:+ " is missing the next stack!"))))
  /\ forall v, ~ getProperty_ends s self key property_name (Return v).
Proof.
  intros Hu. split.
  - intros fuel. apply (getProperty_unlinked _ _ _ _ _ fuel Hu).
  - intros v Hv.
    assert (Hr : getProperty_ends s self key property_name
                   (Raise (NoGlobalStackError (missing_next_stack (es_id this))))).
    { exists 1. apply (getProperty_unlinked _ _ _ _ _ 0 Hu). }
    pose proof (getProperty_ends_unique _ _ _ _ _ _ Hr Hv). discriminate.
Qed.

Lemma getProperty_unlinked_raises_witness :
  (forall fuel,
      getProperty (S fuel) Scenario.store 3 "layer_height" "value"
      = Some (Raise (NoGlobalStackError "Extruder spare is missing the next stack!")))
  /\ forall v, ~ getProperty_ends Scenario.store 3 "layer_height" "value" (Return v).
Proof.
  apply (getProperty_unlinked_raises Scenario.store 3 Scenario.spare
           "layer_height" "value").
  split; reflexivity.
Defined.

(** C6, as the spec has it, fails: no sub-unit without a parent, whose own
    data marks a key settable per extruder and holds a local value for the
    property, gets that value from [getProperty]. *)
Lemma getProperty_unlinked_never_local :
  ~ exists (s : Store) (self : eref) (this : ExtruderStack)
           (key property_name : string) (v : PyVal),
      unlinked s self this
      /\ truthy (super_getProperty this key "settable_per_extruder") = true
      /\ super_getProperty this key property_name = v
      /\ v <> PyNone
      /\ getProperty_ends s self key property_name (Return v).
Proof.
  intros (s & self & this & key & property_name & v & Hu & _ & _ & _ & Hv).
  assert (Hr : getProperty_ends s self key property_name
                 (Raise (NoGlobalStackError (missing_next_stack (es_id this))))).
  { exists 1. apply (getProperty_unlinked _ _ _ _ _ 0 Hu). }
  pose proof (getProperty_ends_unique _ _ _ _ _ _ Hr Hv). discriminate.
Qed.

(** C6, amended. The parent is required without exception: for a sub-unit
    without a parent, also when its own data marks the key settable per
    extruder and holds a local value for the property, [getProperty]
    raises [NoGlobalStackError] and does not return the local value. *)
Theorem getProperty_unlinked_local_value
    (s : Store) (self : eref) (this : ExtruderStack)
    (key property_name : string) (v : PyVal) :
  unlinked s self this ->
  truthy (super_getProperty this key "settable_per_extruder") = true ->
  super_getProperty this key property_name = v ->
  v <> PyNone ->
  getProperty_ends s self key property_name
    (Raise (NoGlobalStackError (missing_next_stack (es_id this))))
  /\ ~ getProperty_ends s self key property_name (Return v).
Proof.
  intros Hu _ _ _.
  assert (Hr : getProperty_ends s self key property_name
                 (Raise (NoGlobalStackError (missing_next_stack (es_id this))))).
  { exists 1. apply (getProperty_unlinked _ _ _ _ _ 0 Hu). }
  split; [exact Hr|].
  intros Hv.
  pose proof (getProperty_ends_unique _ _ _ _ _ _ Hr Hv). discriminate.
Qed.

Lemma getProperty_unlinked_local_value_witness :
  getProperty_ends Scenario.store 3 "wall_thickness" "value"
    (Raise (NoGlobalStackError "Extruder spare is missing the next stack!"))
  /\ ~ getProperty_ends Scenario.store 3 "wall_thickness" "value"
         (Return (PyStr "0.8")).
Proof.
  apply (getProperty_unlinked_local_value Scenario.store 3 Scenario.spare
           "wall_thickness" "value" (PyStr "0.8")).
  - split; reflexivity.
  - reflexivity.
  - reflexivity.
  - discriminate.
Defined.

(** C10, as stated, fails where the sub-unit's own position is "-1": the
    integer -1 passes the test against the sentinel, but the other test of
    the same condition, on the own position, then stops the redirection.
    The sub-unit below has position "-1" and the marker -1, its parent
    holds under "-1" a sibling whose [getProperty] returns 45, and the
    sub-unit's [getProperty] returns its own local value 30. *)
Lemma getProperty_integer_sentinel_own_position :
  linked Sentinel.store 1 Sentinel.minus 30 Sentinel.parent
  /\ truthy (super_getProperty Sentinel.minus "raft_speed" "settable_per_extruder")
     = true
  /\ super_getProperty Sentinel.minus "raft_speed" "limit_to_extruder" = PyInt (-1)
  /\ has_limit (PyInt (-1)) = true
  /\ gs_extruders Sentinel.parent !! Some "-1" = Some 2
  /\ getProperty_ends Sentinel.store 2 "raft_speed" "value" (Return (PyInt 45))
  /\ redirects Sentinel.minus (PyInt (-1)) = false
  /\ (forall fuel,
        getProperty (S fuel) Sentinel.store 1 "raft_speed" "value"
        = Some (Return (PyInt 30)))
  /\ ~ getProperty_ends Sentinel.store 1 "raft_speed" "value" (Return (PyInt 45)).
Proof.
  split; [repeat split; reflexivity|].
  split; [reflexivity|].
  split; [reflexivity|].
  split; [reflexivity|].
  split; [reflexivity|].
  split; [exists 1; reflexivity|].
  split; [reflexivity|].
  assert (Hlocal : forall fuel,
             getProperty (S fuel) Sentinel.store 1 "raft_speed" "value"
             = Some (Return (PyInt 30))).
  { intros fuel.
    apply (getProperty_local Sentinel.store 1 Sentinel.minus 30
             "raft_speed" "value" fuel); reflexivity. }
  split; [exact Hlocal|].
  intros Hends.
  assert (Hmine : getProperty_ends Sentinel.store 1 "raft_speed" "value"
                    (Return (PyInt 30))) by (exists 1; apply Hlocal).
  pose proof (getProperty_ends_unique _ _ _ _ _ _ Hmine Hends). discriminate.
Qed.

(** C10, amended. The test against the sentinel is made on the raw value,
    before [str]: for a linked sub-unit whose own data gives the integer -1
    as [limit_to_extruder] of a key settable per extruder, this test does
    not suppress the redirection, and the position it would go to is "-1".
    Whether it goes there is then decided by the test on the own position
    alone: where the sub-unit's own position is not "-1", the sibling the
    parent holds under "-1" is asked and its value, if not [None], is the
    result; where the own position is "-1", no sibling is asked and the
    result is the sub-unit's own local value. In both cases, when the
    parent's collection has no entry under "-1", the result is the
    sub-unit's own local value. *)
Theorem getProperty_integer_sentinel
    (s : Store) (self : eref) (this : ExtruderStack) (next : gref)
    (g : GlobalStack) (key property_name : string) :
  linked s self this next g ->
  truthy (super_getProperty this key "settable_per_extruder") = true ->
  super_getProperty this key "limit_to_extruder" = PyInt (-1) ->
  has_limit (super_getProperty this key "limit_to_extruder") = true
  /\ Py.str (super_getProperty this key "limit_to_extruder") = "-1"
  /\ redirects this (super_getProperty this key "limit_to_extruder")
     = negb (bool_decide (getMetaDataEntry this "position" = Some "-1"))
  /\ (getMetaDataEntry this "position" <> Some "-1" ->
      forall sibling v,
        gs_extruders g !! Some "-1" = Some sibling ->
        getProperty_ends s sibling key property_name (Return v) ->
        v <> PyNone ->
        getProperty_ends s self key property_name (Return v))
  /\ (getMetaDataEntry this "position" = Some "-1" ->
      forall fuel,
        getProperty (S fuel) s self key property_name
        = Some (Return (super_getProperty this key property_name)))
  /\ (gs_extruders g !! Some "-1" = None ->
      forall fuel,
        getProperty (S fuel) s self key property_name
        = Some (Return (super_getProperty this key property_name))).
Proof.
  intros Hl Ht HL.
  assert (Hred : redirects this (super_getProperty this key "limit_to_extruder")
                 = negb (bool_decide (getMetaDataEntry this "position" = Some "-1"))).
  { rewrite HL. reflexivity. }
  split; [rewrite HL; reflexivity|].
  split; [rewrite HL; reflexivity|].
  split; [exact Hred|].
  split; [|split].
  - intros Hpos sibling v Hsib [fuel Hv] Hnn. exists (S fuel).
    apply (getProperty_sibling_value _ _ _ _ _ _ _ sibling v fuel Hl Ht);
      [ | rewrite HL; exact Hsib | exact Hv | exact Hnn].
    rewrite Hred. apply negb_true_iff, bool_decide_eq_false. exact Hpos.
  - intros Hpos fuel. destruct Hl as (Hself & Hnext & _).
    apply (getProperty_local _ _ _ next _ _ fuel Hself Hnext Ht).
    rewrite Hred. apply negb_false_iff, bool_decide_eq_true. exact Hpos.
  - intros Hnone fuel.
    apply (getProperty_no_sibling _ _ _ _ _ _ _ fuel Hl Ht).
    rewrite HL. exact Hnone.
Qed.

Lemma getProperty_integer_sentinel_witness :
  getProperty_ends Scenario.store 4 "raft_speed" "value" (Return (PyInt 45)).
Proof.
  pose proof (getProperty_integer_sentinel
                Scenario.store 4 Scenario.odd 12 Scenario.odd_machine
                "raft_speed" "value") as H.
  destruct H as (_ & _ & _ & H & _).
  - repeat split; reflexivity.
  - reflexivity.
  - reflexivity.
  - apply (H ltac:(vm_compute; discriminate) 2 (PyInt 45)).
    + reflexivity.
    + exists 1. reflexivity.
    + discriminate.
Defined.

(** ** Linking *)

(** Writing the [machine] entry leaves the [position] entry as it is. *)
Lemma position_after_machine (metadata : gmap string string) (id : string) :
  <["machine" := id]> metadata !! "position" = metadata !! "position".
Proof. apply lookup_insert_ne. discriminate. Qed.

(** The store after one [setNextStack]. *)
Lemma setNextStack_run (s : Store) (self : eref) (stack : gref)
    (this : ExtruderStack) (g : GlobalStack) :
  extruder_stacks s !! self = Some this ->
  global_stacks s !! stack = Some g ->
  setNextStack self stack s
  = Some (Return tt,
          mkStore
            (<[self := mkExtruderStack (es_id this)
                         (<["machine" := gs_id g]> (es_metadata this))
                         (es_containers this) (Some stack)]> (extruder_stacks s))
            (<[stack := mkGlobalStack (gs_id g) (gs_containers g)
                          (<[getMetaDataEntry this "position" := self]> (gs_extruders g))
                          (gs_definition g)]> (global_stacks s))
            (container_registry s)
            (<[self := gs_id g]> (extruder_manager s))
            (calls s ++ link_calls self stack (gs_id g))).
Proof.
  intros Hself Hg.
  unfold setNextStack, ContainerStack_setNextStack, GlobalStack_addExtruder,
    addMetaDataEntry, ExtruderManager_registerExtruder.
  unfold mbind, M_bind, bind, log_call, get_extruder, get_global,
    set_extruder, set_global, get_extruder_manager, set_extruder_manager.
  repeat (first [rewrite lookup_insert_eq | rewrite Hg | rewrite Hself
                | progress cbn]).
  rewrite insert_insert_eq. rewrite <- !app_assoc. reflexivity.
Qed.

(** Linking keeps every object in the store. *)
Lemma setNextStack_allocated (s : Store) (self : eref) (stack : gref) :
  is_Some (extruder_stacks s !! self) ->
  is_Some (global_stacks s !! stack) ->
  exists s',
    setNextStack self stack s = Some (Return tt, s')
    /\ is_Some (extruder_stacks s' !! self)
    /\ forall r, is_Some (global_stacks s !! r) -> is_Some (global_stacks s' !! r).
Proof.
  intros [this Hself] [g Hg].
  eexists. split; [apply (setNextStack_run _ _ _ _ _ Hself Hg)|]. cbn. split.
  - rewrite lookup_insert_eq. eauto.
  - intros r Hr. destruct (decide (stack = r)) as [->|Hne].
    + rewrite lookup_insert_eq. eauto.
    + rewrite lookup_insert_ne by assumption. assumption.
Qed.

Lemma link_all_allocated (self : eref) (stacks : list gref) :
  forall s : Store,
    is_Some (extruder_stacks s !! self) ->
    Forall (fun r => is_Some (global_stacks s !! r)) stacks ->
    exists s',
      link_all self stacks s = Some (Return tt, s')
      /\ is_Some (extruder_stacks s' !! self)
      /\ forall r, is_Some (global_stacks s !! r) -> is_Some (global_stacks s' !! r).
Proof.
  induction stacks as [|stack rest IH]; intros s Hself Hall.
  - exists s. repeat split; [assumption | auto].
  - apply Forall_cons in Hall. destruct Hall as [Hstack Hrest].
    destruct (setNextStack_allocated s self stack Hself Hstack)
      as (s1 & Hrun & Hself1 & Hkeep).
    destruct (IH s1 Hself1) as (s' & Hrun' & Hself' & Hkeep').
    { eapply Forall_impl; [exact Hrest|]. intros r Hr. cbn. auto. }
    exists s'. split; [|split; [assumption | auto]].
    cbn. unfold mbind, M_bind, bind. rewrite Hrun. exact Hrun'.
Qed.

(** The last link of a sequence is made on the store the earlier ones leave. *)
Lemma link_all_snoc (self : eref) (stack : gref) (earlier : list gref) :
  forall s s1 : Store,
    link_all self earlier s = Some (Return tt, s1) ->
    link_all self (earlier ++ [stack]) s = setNextStack self stack s1.
Proof.
  induction earlier as [|first rest IH]; intros s s1 Hrun.
  - cbn in Hrun. injection Hrun as <-. cbn. unfold mbind, M_bind, bind.
    destruct (setNextStack self stack s) as [[[[]|e] s']|]; reflexivity.
  - cbn in *. unfold mbind, M_bind, bind in *.
    destruct (setNextStack self first s) as [[[[]|e] s2]|]; try discriminate.
    apply (IH _ _ Hrun).
Qed.

(** Linking the spare sub-unit to one machine and then to another leaves
    it with the second one's identifier, and in the collections of both. *)
Example relink_machine_entry :
  match link_all 3 [10; 11] Scenario.store with
  | Some (Return _, s') =>
      this ← extruder_stacks s' !! 3; getMetaDataEntry this "machine"
  | _ => None
  end = Some "M2".
Proof. vm_compute. reflexivity. Qed.

Example relink_old_parent_keeps_entry :
  match link_all 3 [10; 11] Scenario.store with
  | Some (Return _, s') =>
      g ← global_stacks s' !! 10; gs_extruders g !! Some "2"
  | _ => None
  end = Some 3.
Proof. vm_compute. reflexivity. Qed.

(** C7. [setNextStack] makes its four effects, in the order of the source:
    the parent is stored as the sub-unit's (only) parent reference, the
    sub-unit is added to the parent's collection, the [machine] metadata
    entry is set to the parent's identifier, and the pair (sub-unit, parent
    identifier) is registered with the extruder manager. So after any
    sequence of links, be it to one parent after another, the [machine]
    entry is the identifier of the current parent. *)
Theorem setNextStack_machine_follows_parent
    (s : Store) (self : eref) (earlier : list gref) (stack : gref) :
  is_Some (extruder_stacks s !! self) ->
  Forall (fun r => is_Some (global_stacks s !! r)) (earlier ++ [stack]) ->
  exists (s' : Store) (this' : ExtruderStack) (g' : GlobalStack),
    link_all self (earlier ++ [stack]) s = Some (Return tt, s')
    /\ extruder_stacks s' !! self = Some this'
    /\ global_stacks s' !! stack = Some g'
    /\ es_next_stack this' = Some stack
    /\ gs_extruders g' !! getMetaDataEntry this' "position" = Some self
    /\ getMetaDataEntry this' "machine" = Some (gs_id g')
    /\ extruder_manager s' !! self = Some (gs_id g')
    /\ exists before, calls s' = (before ++ link_calls self stack (gs_id g'))%list.
Proof.
  intros Hself Hall.
  apply Forall_app in Hall. destruct Hall as [Hearlier Hstack].
  apply Forall_cons in Hstack. destruct Hstack as [Hstack _].
  destruct (link_all_allocated self earlier s Hself Hearlier)
    as (s1 & Hrun1 & [this1 Hself1] & Hkeep).
  destruct (Hkeep stack Hstack) as [g1 Hg1].
  pose proof (setNextStack_run s1 self stack this1 g1 Hself1 Hg1) as Hrun.
  rewrite <- (link_all_snoc self stack earlier s s1 Hrun1) in Hrun.
  eexists _, _, _. split; [exact Hrun|]. cbn.
  split; [apply lookup_insert_eq|].
  split; [apply lookup_insert_eq|]. cbn.
  split; [reflexivity|].
  split.
  { unfold getMetaDataEntry. cbn.
    rewrite position_after_machine. apply lookup_insert_eq. }
  split; [apply lookup_insert_eq|].
  split; [apply lookup_insert_eq|].
  eexists. reflexivity.
Qed.

Lemma setNextStack_machine_follows_parent_witness :
  exists (s' : Store) (this' : ExtruderStack) (g' : GlobalStack),
    link_all 3 ([10] ++ [11]) Scenario.store = Some (Return tt, s')
    /\ extruder_stacks s' !! 3 = Some this'
    /\ global_stacks s' !! 11 = Some g'
    /\ es_next_stack this' = Some 11
    /\ gs_extruders g' !! getMetaDataEntry this' "position" = Some 3
    /\ getMetaDataEntry this' "machine" = Some (gs_id g')
    /\ extruder_manager s' !! 3 = Some (gs_id g')
    /\ exists before, calls s' = (before ++ link_calls 3 11 (gs_id g'))%list.
Proof.
  apply (setNextStack_machine_follows_parent Scenario.store 3 [10] 11).
  - exists Scenario.spare. reflexivity.
  - repeat constructor; eexists; reflexivity.
Defined.

(** The first of the registered stacks that have an identifier is the one
    stack that has it, where there is one only. *)
Lemma registered_with_id_unique (s : Store) (id : string) (stack : gref)
    (g : GlobalStack) :
  In stack (container_registry s) ->
  global_stacks s !! stack = Some g ->
  gs_id g = id ->
  (forall r g', In r (container_registry s) ->
                global_stacks s !! r = Some g' -> gs_id g' = id -> r = stack) ->
  exists rest, registered_with_id s id = stack :: rest.
Proof.
  intros Hin Hg Hid Huniq. unfold registered_with_id.
  set (has_id := fun r => match global_stacks s !! r with
                          | Some g => String.eqb (gs_id g) id
                          | None => false
                          end).
  assert (Hmem : In stack (List.filter has_id (container_registry s))).
  { apply filter_In. split; [assumption|]. unfold has_id. rewrite Hg.
    apply String.eqb_eq. assumption. }
  destruct (List.filter has_id (container_registry s)) as [|first rest] eqn:Hf;
    [destruct Hmem|].
  assert (Hfirst : In first (List.filter has_id (container_registry s))).
  { rewrite Hf. left. reflexivity. }
  apply filter_In in Hfirst. destruct Hfirst as [Hreg Hhas].
  unfold has_id in Hhas.
  destruct (global_stacks s !! first) as [g'|] eqn:Hg'; [|discriminate].
  apply String.eqb_eq in Hhas.
  rewrite (Huniq first g' Hreg Hg' Hhas). eauto.
Qed.

(** The store after the base deserialization. *)
Lemma ContainerStack_deserialize_run (parse : string -> Persisted) (s : Store)
    (self : eref) (this : ExtruderStack) (contents : string) :
  extruder_stacks s !! self = Some this ->
  ContainerStack_deserialize parse self contents s
  = Some (Return tt,
          mkStore
            (<[self := mkExtruderStack (es_id this) (p_metadata (parse contents))
                         (p_containers (parse contents)) (es_next_stack this)]>
               (extruder_stacks s))
            (global_stacks s) (container_registry s) (extruder_manager s)
            (calls s ++ [CallDeserialize self contents])).
Proof.
  intros Hself.
  unfold ContainerStack_deserialize, mbind, M_bind, bind, log_call,
    get_extruder, set_extruder.
  cbn. rewrite Hself. reflexivity.
Qed.

(** [deserialize], step by step: the base first, then the lookup, then the
    link to the first match if there is one. *)
Lemma deserialize_run (parse : string -> Persisted) (s s1 : Store)
    (self : eref) (loaded : ExtruderStack) (contents : string) :
  ContainerStack_deserialize parse self contents s = Some (Return tt, s1) ->
  extruder_stacks s1 !! self = Some loaded ->
  deserialize parse self contents s
  = match registered_with_id s1 (getMetaDataEntry_default loaded "machine" EmptyString) with
    | [] => Some (Return tt, s1)
    | stack :: _ => setNextStack self stack s1
    end.
Proof.
  intros Hbase Hloaded.
  unfold deserialize, findContainerStacks, mbind, M_bind, bind,
    get_extruder, get_container_registry, get_global_stacks, mret, M_ret, ret.
  rewrite Hbase. cbn. rewrite Hloaded. cbn.
  unfold registered_with_id.
  destruct (List.filter _ (container_registry s1)); reflexivity.
Qed.

Lemma getNextStack_run (s : Store) (self : eref) (this : ExtruderStack) :
  extruder_stacks s !! self = Some this ->
  getNextStack self s = Some (Return (es_next_stack this), s).
Proof.
  intros Hself.
  unfold getNextStack, ContainerStack_getNextStack, mbind, M_bind, bind,
    get_extruder.
  rewrite Hself. reflexivity.
Qed.

(** A stack that the lookup finds is in the store and has the identifier. *)
Lemma registered_with_id_allocated (s : Store) (id : string) (stack : gref) :
  In stack (registered_with_id s id) ->
  exists g, global_stacks s !! stack = Some g /\ gs_id g = id.
Proof.
  unfold registered_with_id. intros Hin.
  apply filter_In in Hin. destruct Hin as [_ Hhas].
  destruct (global_stacks s !! stack) as [g|]; [|discriminate].
  exists g. split; [reflexivity|]. apply String.eqb_eq. assumption.
Qed.

(** After a link the sub-unit's parent is the stack linked to. *)
Lemma setNextStack_getNextStack (s : Store) (self : eref) (stack : gref) :
  is_Some (extruder_stacks s !! self) ->
  is_Some (global_stacks s !! stack) ->
  exists s',
    setNextStack self stack s = Some (Return tt, s')
    /\ getNextStack self s' = Some (Return (Some stack), s').
Proof.
  intros [this Hself] [g Hg].
  eexists. split; [apply (setNextStack_run _ _ _ _ _ Hself Hg)|].
  apply (getNextStack_run _ self
           (mkExtruderStack (es_id this)
              (<["machine" := gs_id g]> (es_metadata this))
              (es_containers this) (Some stack))).
  cbn. apply lookup_insert_eq.
Qed.

(** C8. [deserialize] runs the base deserialization first, then reads the
    [machine] metadata entry (the empty string where there is none), looks
    up the registered stacks that have this identifier, and links to the
    first of them with [setNextStack]; where there is none it raises
    nothing and leaves the parent reference as it was, so a sub-unit
    without a parent stays without. So a sub-unit persisted with machine
    "M1" and loaded while the registry holds the stack that has identifier
    "M1" ends with [getNextStack] returning that stack. *)
Theorem deserialize_restores_link
    (parse : string -> Persisted) (s : Store) (self : eref)
    (this : ExtruderStack) (contents : string) :
  extruder_stacks s !! self = Some this ->
  exists (s1 : Store) (loaded : ExtruderStack),
    ContainerStack_deserialize parse self contents s = Some (Return tt, s1)
    /\ extruder_stacks s1 !! self = Some loaded
    /\ es_metadata loaded = p_metadata (parse contents)
    /\ es_next_stack loaded = es_next_stack this
    /\ (forall stack rest,
          registered_with_id s (getMetaDataEntry_default loaded "machine" EmptyString)
          = stack :: rest ->
          deserialize parse self contents s = setNextStack self stack s1
          /\ exists s',
               deserialize parse self contents s = Some (Return tt, s')
               /\ getNextStack self s' = Some (Return (Some stack), s'))
    /\ (registered_with_id s (getMetaDataEntry_default loaded "machine" EmptyString) = [] ->
        deserialize parse self contents s = Some (Return tt, s1))
    /\ (forall stack g,
          getMetaDataEntry loaded "machine" = Some "M1" ->
          In stack (container_registry s) ->
          global_stacks s !! stack = Some g ->
          gs_id g = "M1" ->
          (forall r g', In r (container_registry s) ->
                        global_stacks s !! r = Some g' -> gs_id g' = "M1" ->
                        r = stack) ->
          exists s',
            deserialize parse self contents s = Some (Return tt, s')
            /\ getNextStack self s' = Some (Return (Some stack), s')).
Proof.
  intros Hself.
  pose proof (ContainerStack_deserialize_run parse s self this contents Hself)
    as Hbase.
  set (loaded := mkExtruderStack (es_id this) (p_metadata (parse contents))
                   (p_containers (parse contents)) (es_next_stack this)) in *.
  set (s1 := mkStore (<[self := loaded]> (extruder_stacks s)) (global_stacks s)
               (container_registry s) (extruder_manager s)
               (calls s ++ [CallDeserialize self contents])) in *.
  assert (Hloaded : extruder_stacks s1 !! self = Some loaded)
    by apply lookup_insert_eq.
  pose proof (deserialize_run parse s s1 self loaded contents Hbase Hloaded)
    as Hrun.
  change (registered_with_id s1) with (registered_with_id s) in Hrun.
  assert (Hfirst : forall stack rest,
            registered_with_id s (getMetaDataEntry_default loaded "machine" EmptyString)
            = stack :: rest ->
            deserialize parse self contents s = setNextStack self stack s1
            /\ exists s',
                 deserialize parse self contents s = Some (Return tt, s')
                 /\ getNextStack self s' = Some (Return (Some stack), s')).
  { intros stack rest Hreg. rewrite Hreg in Hrun. split; [exact Hrun|].
    destruct (registered_with_id_allocated s
                (getMetaDataEntry_default loaded "machine" EmptyString) stack)
      as (g & Hg & _); [rewrite Hreg; left; reflexivity|].
    rewrite Hrun.
    apply setNextStack_getNextStack; [rewrite Hloaded; eauto|].
    change (global_stacks s1) with (global_stacks s). rewrite Hg. eauto. }
  exists s1, loaded.
  split; [exact Hbase|].
  split; [exact Hloaded|].
  split; [reflexivity|].
  split; [reflexivity|].
  split; [exact Hfirst|].
  split.
  - intros Hnone. rewrite Hnone in Hrun. exact Hrun.
  - intros stack g Hmachine Hin Hg Hid Huniq.
    destruct (registered_with_id_unique s "M1" stack g Hin Hg Hid Huniq)
      as [rest Hreg].
    unfold getMetaDataEntry_default in Hfirst. rewrite Hmachine in Hfirst.
    destruct (Hfirst stack rest Hreg) as [_ Hends]. exact Hends.
Qed.

Lemma deserialize_restores_link_witness :
  exists s',
    deserialize Scenario.parse 3 "[metadata] position = 2, machine = M1"
      Scenario.store
    = Some (Return tt, s')
    /\ getNextStack 3 s' = Some (Return (Some 10), s').
Proof.
  destruct (deserialize_restores_link Scenario.parse Scenario.store 3
              Scenario.spare "[metadata] position = 2, machine = M1" eq_refl)
    as (s1 & loaded & _ & _ & Hmeta & _ & _ & _ & Hround).
  apply (Hround 10 Scenario.machine).
  - unfold getMetaDataEntry. rewrite Hmeta. reflexivity.
  - left. reflexivity.
  - reflexivity.
  - reflexivity.
  - intros r g' [<- | [<- | [<- | []]]] Hg' Hid'; [reflexivity| |];
      vm_compute in Hg'; injection Hg' as <-; discriminate Hid'.
Defined.

(** ** The machine definition *)

(** C9. [_getMachineDefinition] raises [NoGlobalStackError] exactly when
    the sub-unit has no parent; with a parent it returns exactly what the
    parent's own accessor returns; in both cases the store is left as it
    was. *)
Theorem getMachineDefinition_delegates
    (s : Store) (self : eref) (this : ExtruderStack) :
  extruder_stacks s !! self = Some this ->
  (forall next, es_next_stack this = Some next ->
                is_Some (global_stacks s !! next)) ->
  exists r : Outcome string,
    _getMachineDefinition self s = Some (r, s)
    /\ ((exists e, r = Raise e) <-> es_next_stack this = None)
    /\ (es_next_stack this = None ->
        r = Raise (NoGlobalStackError (missing_next_stack (es_id this))))
    /\ (forall next g,
          es_next_stack this = Some next ->
          global_stacks s !! next = Some g ->
          _getMachineDefinition self s = GlobalStack_getMachineDefinition g s
          /\ r = Return (gs_definition g)).
Proof.
  intros Hself Hparent.
  unfold _getMachineDefinition, mbind, M_bind, bind.
  rewrite (getNextStack_run s self this Hself).
  destruct (es_next_stack this) as [next|] eqn:Hnext.
  - destruct (Hparent next eq_refl) as [g Hg].
    unfold get_global. rewrite Hg. cbn.
    exists (Return (gs_definition g)).
    split; [reflexivity|].
    split; [split; [intros [e He]; discriminate | discriminate]|].
    split; [discriminate|].
    intros next' g' Hnext' Hg'. injection Hnext' as <-.
    rewrite Hg in Hg'. injection Hg' as <-. split; reflexivity.
  - unfold get_extruder. rewrite Hself. cbn.
    exists (Raise (NoGlobalStackError (missing_next_stack (es_id this)))).
    split; [reflexivity|].
    split; [split; [reflexivity | eauto]|].
    split; [reflexivity|].
    intros next g Hnext'. discriminate.
Qed.

Lemma getMachineDefinition_delegates_witness :
  _getMachineDefinition 1 Scenario.store
  = Some (Return "fdmprinter", Scenario.store).
Proof.
  destruct (getMachineDefinition_delegates Scenario.store 1 Scenario.left)
    as (r & Hrun & _ & _ & Hlinked).
  - reflexivity.
  - intros next Hnext. injection Hnext as <-. exists Scenario.machine.
    reflexivity.
  - destruct (Hlinked 10 Scenario.machine eq_refl eq_refl) as [Hsame _].
    exact Hsame.
Defined.

(** ** Property resolution: truthiness, errors and chains *)

(** X1. The first test of [getProperty] is Python's [not], so it is not
    only on [False] and [None] that the parent answers: it answers also
    when the sub-unit's [settable_per_extruder] is the integer 0 or the
    empty string. A non-zero integer or a non-empty string (the string
    "False" too) counts as settable, as [True] does: without redirection
    the local value is then the result. *)
Theorem getProperty_settable_truthiness
    (s : Store) (self : eref) (this : ExtruderStack) (next : gref)
    (g : GlobalStack) (key property_name : string) (v : PyVal) :
  linked s self this next g ->
  super_getProperty this key "settable_per_extruder" = v ->
  (v = PyInt 0 \/ v = PyStr EmptyString ->
   forall fuel,
     getProperty (S fuel) s self key property_name
     = Some (Return (GlobalStack_getProperty g key property_name)))
  /\ (v = PyBool true
      \/ (exists z, v = PyInt z /\ z <> 0%Z)
      \/ (exists x, v = PyStr x /\ x <> EmptyString) ->
      redirects this (super_getProperty this key "limit_to_extruder") = false ->
      forall fuel,
        getProperty (S fuel) s self key property_name
        = Some (Return (super_getProperty this key property_name))).
Proof.
  intros Hl Hv. split.
  - intros Hfalsy fuel. apply (getProperty_falsy _ _ _ _ _ _ _ _ Hl).
    rewrite Hv. destruct Hfalsy as [-> | ->]; reflexivity.
  - intros Htruthy Hred fuel. destruct Hl as (Hself & Hnext & _).
    apply (getProperty_local _ _ _ next _ _ _ Hself Hnext); [|exact Hred].
    rewrite Hv.
    destruct Htruthy as [-> | [(z & -> & Hz) | (x & -> & Hx)]]; simpl.
    + reflexivity.
    + apply negb_true_iff, Z.eqb_neq. exact Hz.
    + apply negb_true_iff, String.eqb_neq. exact Hx.
Qed.

Lemma getProperty_settable_truthiness_witness :
  getProperty 1 Workshop.store 1 "layer_height" "value"
  = Some (Return (PyStr "0.2")).
Proof.
  destruct (getProperty_settable_truthiness
              Workshop.store 1 Workshop.a 20 Workshop.printer
              "layer_height" "value" (PyInt 0)) as [Hfalsy _].
  - repeat split; reflexivity.
  - reflexivity.
  - apply (Hfalsy (or_introl eq_refl) 0).
Defined.

(** X2. An exception of the sibling is not caught: when the redirection
    goes to a sibling that has no parent, [getProperty] raises the
    sibling's [NoGlobalStackError], whose message names the sibling and not
    the sub-unit that was asked; the local value is not used. *)
Theorem getProperty_sibling_unlinked
    (s : Store) (A : eref) (a : ExtruderStack) (next : gref) (g : GlobalStack)
    (key property_name : string) (B : eref) (b : ExtruderStack) :
  linked s A a next g ->
  truthy (super_getProperty a key "settable_per_extruder") = true ->
  redirects a (super_getProperty a key "limit_to_extruder") = true ->
  gs_extruders g !! Some (Py.str (super_getProperty a key "limit_to_extruder"))
  = Some B ->
  unlinked s B b ->
  forall fuel,
    getProperty (S (S fuel)) s A key property_name
    = Some (Raise (NoGlobalStackError
                     ("Extruder " +:+ es_id b +:+ " is missing the next stack!"))).
Proof.
  intros Hl Ht Hr Hsib Hu fuel.
  rewrite (getProperty_redirect _ _ _ _ _ _ _ _ Hl Ht Hr), Hsib.
  rewrite (getProperty_unlinked _ _ _ _ _ fuel Hu). reflexivity.
Qed.

Lemma getProperty_sibling_unlinked_witness :
  getProperty 2 Workshop.store 1 "orphan" "value"
  = Some (Raise (NoGlobalStackError "Extruder d is missing the next stack!")).
Proof.
  refine (getProperty_sibling_unlinked
            Workshop.store 1 Workshop.a 20 Workshop.printer
            "orphan" "value" 4 Workshop.d _ _ _ _ _ 0).
  - repeat split; reflexivity.
  - reflexivity.
  - reflexivity.
  - reflexivity.
  - split; reflexivity.
Defined.

(** X3. [getProperty] has no guard against circular redirection: in a set
    of sub-units each of which, for the key, asks another one of the set
    first, a call yields neither a value nor a [NoGlobalStackError], at
    whatever depth of nested calls: the calls nest without bound (Python
    ends them at its recursion limit). *)
Theorem getProperty_redirection_cycle
    (s : Store) (key property_name : string) (cycle : eref -> Prop) :
  (forall a, cycle a -> exists b, cycle b /\ redirects_to s key a b) ->
  forall a, cycle a ->
    forall r, ~ getProperty_ends s a key property_name r.
Proof.
  intros Hclosed.
  assert (Hnone : forall fuel a, cycle a ->
                    getProperty fuel s a key property_name = None).
  { induction fuel as [|fuel IH]; intros a Ha; [reflexivity|].
    destruct (Hclosed a Ha) as (b & Hb & this & next & g & Hl & Ht & Hr & Hsib).
    rewrite (getProperty_redirect _ _ _ _ _ _ _ _ Hl Ht Hr), Hsib.
    rewrite (IH b Hb). reflexivity. }
  intros a Ha r [fuel Hr]. rewrite (Hnone fuel a Ha) in Hr. discriminate.
Qed.

Lemma getProperty_redirection_cycle_witness :
  ~ exists r, getProperty_ends Workshop.store 1 "ping" "value" r.
Proof.
  intros [r Hr]. revert r Hr.
  apply (getProperty_redirection_cycle Workshop.store "ping" "value"
           (fun x => x = 1 \/ x = 2)).
  - intros x [-> | ->].
    + exists 2. split; [right; reflexivity|].
      exists Workshop.a, 20, Workshop.printer.
      repeat split; reflexivity.
    + exists 1. split; [left; reflexivity|].
      exists Workshop.b, 20, Workshop.printer.
      repeat split; reflexivity.
  - left. reflexivity.
Defined.

(** X4. Redirection is followed through any number of sub-units: when a
    chain of redirections for the key leads from one sub-unit to another,
    and that one's [getProperty] returns a value other than [None], the
    first one's [getProperty] returns this value. *)
Theorem getProperty_redirection_chain
    (s : Store) (key property_name : string) (a b : eref) (v : PyVal) :
  rtc (redirects_to s key) a b ->
  getProperty_ends s b key property_name (Return v) ->
  v <> PyNone ->
  getProperty_ends s a key property_name (Return v).
Proof.
  intros Hchain Hb Hnn.
  induction Hchain as [a | a m b Hstep Hrest IH]; [exact Hb|].
  destruct (IH Hb) as [fuel Hm].
  destruct Hstep as (this & next & g & Hl & Ht & Hr & Hsib).
  exists (S fuel).
  apply (getProperty_sibling_value _ _ _ _ _ _ _ m v fuel Hl Ht Hr Hsib Hm Hnn).
Qed.

Lemma getProperty_redirection_chain_witness :
  getProperty_ends Workshop.store 1 "chain" "value" (Return (PyStr "end")).
Proof.
  apply (getProperty_redirection_chain Workshop.store "chain" "value" 1 3
           (PyStr "end")).
  - apply (rtc_l _ 1 2 3).
    { exists Workshop.a, 20, Workshop.printer. repeat split; reflexivity. }
    apply (rtc_l _ 2 3 3).
    { exists Workshop.b, 20, Workshop.printer. repeat split; reflexivity. }
    apply rtc_refl.
  - exists 1. reflexivity.
  - discriminate.
Defined.

(** X5. The usual configuration needs two nested calls and no more: when
    two sub-units carry the same marker for a key settable on both, the
    marker names the position of the second one, and the parent of the
    first holds the second under that position, the second answers with
    its own local value without redirecting further, and the first
    returns that value, or its own local value when that one is [None]. *)
Theorem getProperty_shared_marker
    (s : Store) (A : eref) (a : ExtruderStack) (next : gref) (g : GlobalStack)
    (B : eref) (b : ExtruderStack) (nextB : gref)
    (key property_name : string) (L : PyVal) :
  linked s A a next g ->
  extruder_stacks s !! B = Some b ->
  es_next_stack b = Some nextB ->
  truthy (super_getProperty a key "settable_per_extruder") = true ->
  truthy (super_getProperty b key "settable_per_extruder") = true ->
  super_getProperty a key "limit_to_extruder" = L ->
  super_getProperty b key "limit_to_extruder" = L ->
  has_limit L = true ->
  getMetaDataEntry a "position" <> Some (Py.str L) ->
  getMetaDataEntry b "position" = Some (Py.str L) ->
  gs_extruders g !! Some (Py.str L) = Some B ->
  forall fuel,
    getProperty (S (S fuel)) s A key property_name
    = Some (Return (if is_not_None (super_getProperty b key property_name)
                    then super_getProperty b key property_name
                    else super_getProperty a key property_name)).
Proof.
  intros Hl HB HnB Hta Htb HLa HLb Hlim Hpa Hpb Hsib fuel.
  assert (Hra : redirects a (super_getProperty a key "limit_to_extruder") = true).
  { rewrite HLa. unfold redirects. rewrite Hlim. simpl.
    apply negb_true_iff, bool_decide_eq_false. exact Hpa. }
  assert (Hrb : redirects b (super_getProperty b key "limit_to_extruder") = false).
  { rewrite HLb. unfold redirects. rewrite Hlim. simpl.
    apply negb_false_iff, bool_decide_eq_true. exact Hpb. }
  rewrite (getProperty_redirect _ _ _ _ _ _ _ _ Hl Hta Hra), HLa, Hsib.
  rewrite (getProperty_local _ _ _ _ _ _ fuel HB HnB Htb Hrb).
  destruct (is_not_None _); reflexivity.
Qed.

Lemma getProperty_shared_marker_witness :
  getProperty 2 Workshop.store 1 "shared" "value" = Some (Return (PyStr "B")).
Proof.
  refine (getProperty_shared_marker
            Workshop.store 1 Workshop.a 20 Workshop.printer 2 Workshop.b 20
            "shared" "value" (PyStr "1") _ _ _ _ _ _ _ _ _ _ _ 0).
  - repeat split; reflexivity.
  - reflexivity.
  - reflexivity.
  - reflexivity.
  - reflexivity.
  - reflexivity.
  - reflexivity.
  - reflexivity.
  - vm_compute. discriminate.
  - reflexivity.
  - reflexivity.
Defined.

(** X6. The sibling resolves with its own parent: when the redirection
    goes to a sibling whose own data does not mark the key settable per
    extruder, the result is what the sibling's parent gives, be it another
    stack than the parent of the sub-unit that was asked, and the local
    value only when the sibling's parent gives [None]. *)
Theorem getProperty_sibling_delegates
    (s : Store) (A : eref) (a : ExtruderStack) (next : gref) (g : GlobalStack)
    (B : eref) (b : ExtruderStack) (nextB : gref) (gB : GlobalStack)
    (key property_name : string) :
  linked s A a next g ->
  truthy (super_getProperty a key "settable_per_extruder") = true ->
  redirects a (super_getProperty a key "limit_to_extruder") = true ->
  gs_extruders g !! Some (Py.str (super_getProperty a key "limit_to_extruder"))
  = Some B ->
  linked s B b nextB gB ->
  truthy (super_getProperty b key "settable_per_extruder") = false ->
  forall fuel,
    getProperty (S (S fuel)) s A key property_name
    = Some (Return (if is_not_None (GlobalStack_getProperty gB key property_name)
                    then GlobalStack_getProperty gB key property_name
                    else super_getProperty a key property_name)).
Proof.
  intros Hl Ht Hr Hsib HlB HfB fuel.
  rewrite (getProperty_redirect _ _ _ _ _ _ _ _ Hl Ht Hr), Hsib.
  rewrite (getProperty_falsy _ _ _ _ _ _ _ fuel HlB HfB).
  destruct (is_not_None _); reflexivity.
Qed.

Lemma getProperty_sibling_delegates_witness :
  getProperty 2 Workshop.store 1 "fan_speed" "value" = Some (Return (PyInt 55)).
Proof.
  refine (getProperty_sibling_delegates
            Workshop.store 1 Workshop.a 20 Workshop.printer
            5 Workshop.e 21 Workshop.bench "fan_speed" "value" _ _ _ _ _ _ 0).
  - repeat split; reflexivity.
  - reflexivity.
  - reflexivity.
  - reflexivity.
  - repeat split; reflexivity.
  - reflexivity.
Defined.

(** X7. A marker that is an integer is turned into a string only after
    the test against the sentinel: every integer but -1 redirects exactly
    as its decimal string does, to the same position; -1 passes the test
    that its string "-1" fails. *)
Theorem redirects_integer_marker (this : ExtruderStack) (z : Z) :
  (z <> (-1)%Z ->
   redirects this (PyInt z) = redirects this (PyStr (Py.str (PyInt z))))
  /\ Py.str (PyStr (Py.str (PyInt z))) = Py.str (PyInt z)
  /\ has_limit (PyInt z) = true
  /\ (has_limit (PyStr (Py.str (PyInt z))) = false <-> z = (-1)%Z).
Proof.
  assert (Hstr : has_limit (PyStr (Py.str (PyInt z))) = false <-> z = (-1)%Z).
  { unfold has_limit. simpl. rewrite negb_false_iff, String.eqb_eq. split.
    - intros H. apply (inj pretty). exact H.
    - intros ->. reflexivity. }
  split; [|split; [reflexivity|split; [reflexivity|exact Hstr]]].
  intros Hz. unfold redirects. simpl Py.str.
  replace (has_limit (PyStr (pretty z))) with true; [reflexivity|].
  symmetry. apply not_false_is_true. intros Hf. apply Hz, Hstr, Hf.
Qed.

Lemma redirects_integer_marker_witness :
  redirects Workshop.a (PyInt 1) = redirects Workshop.a (PyStr "1").
Proof.
  destruct (redirects_integer_marker Workshop.a 1) as [H _].
  apply H. discriminate.
Defined.

(** ** Linking: what it leaves alone, and what can be read after it *)

(** X8. [setNextStack] touches the sub-unit and the new parent only: every
    other sub-unit, every other parent (the one the sub-unit was linked to
    before among them: it is not told), the registry and the other
    registrations of the extruder manager stay as they were; of the
    sub-unit, the identifier, the layers and every metadata entry but
    [machine] stay; of the parent, the identifier, the layers, the machine
    definition and every other position of its collection. *)
Theorem setNextStack_frame
    (s : Store) (self : eref) (this : ExtruderStack) (stack : gref)
    (g : GlobalStack) :
  extruder_stacks s !! self = Some this ->
  global_stacks s !! stack = Some g ->
  exists (s' : Store) (this' : ExtruderStack) (g' : GlobalStack),
    setNextStack self stack s = Some (Return tt, s')
    /\ extruder_stacks s' !! self = Some this'
    /\ global_stacks s' !! stack = Some g'
    /\ (forall other, other <> self ->
          extruder_stacks s' !! other = extruder_stacks s !! other)
    /\ (forall other, other <> stack ->
          global_stacks s' !! other = global_stacks s !! other)
    /\ container_registry s' = container_registry s
    /\ (forall other, other <> self ->
          extruder_manager s' !! other = extruder_manager s !! other)
    /\ es_id this' = es_id this
    /\ es_containers this' = es_containers this
    /\ (forall name, name <> "machine" ->
          getMetaDataEntry this' name = getMetaDataEntry this name)
    /\ gs_id g' = gs_id g
    /\ gs_containers g' = gs_containers g
    /\ gs_definition g' = gs_definition g
    /\ (forall position, position <> getMetaDataEntry this "position" ->
          gs_extruders g' !! position = gs_extruders g !! position).
Proof.
  intros Hself Hg.
  eexists _, _, _. split; [apply (setNextStack_run _ _ _ _ _ Hself Hg)|]. cbn.
  split; [apply lookup_insert_eq|].
  split; [apply lookup_insert_eq|]. cbn.
  split; [intros other Hne; apply lookup_insert_ne; congruence|].
  split; [intros other Hne; apply lookup_insert_ne; congruence|].
  split; [reflexivity|].
  split; [intros other Hne; apply lookup_insert_ne; congruence|].
  split; [reflexivity|].
  split; [reflexivity|].
  split; [intros name Hne; apply lookup_insert_ne; congruence|].
  split; [reflexivity|].
  split; [reflexivity|].
  split; [reflexivity|].
  intros position Hne. apply lookup_insert_ne. congruence.
Qed.

Lemma setNextStack_frame_witness :
  exists s',
    setNextStack 3 11 Scenario.store = Some (Return tt, s')
    /\ global_stacks s' !! 10 = Some Scenario.machine
    /\ extruder_stacks s' !! 1 = Some Scenario.left.
Proof.
  destruct (setNextStack_frame Scenario.store 3 Scenario.spare 11
              Scenario.other_machine eq_refl eq_refl)
    as (s' & this' & g' & Hrun & _ & _ & Hunits & Hparents & _).
  exists s'. split; [exact Hrun|]. split.
  - rewrite (Hparents 10) by discriminate. reflexivity.
  - rewrite (Hunits 1) by discriminate. reflexivity.
Defined.

(** X9. Linking again to another parent does not undo the first link on
    the parent's side: after [setNextStack] to one parent and then to a
    different one, the sub-unit's parent is the second, and the first still
    holds the sub-unit in its collection, under the sub-unit's position. *)
Theorem setNextStack_relink_keeps_old_entry
    (s : Store) (self : eref) (this : ExtruderStack)
    (old new : gref) (g_old g_new : GlobalStack) :
  extruder_stacks s !! self = Some this ->
  global_stacks s !! old = Some g_old ->
  global_stacks s !! new = Some g_new ->
  old <> new ->
  exists (s' : Store) (this' : ExtruderStack) (g_old' : GlobalStack),
    link_all self [old; new] s = Some (Return tt, s')
    /\ extruder_stacks s' !! self = Some this'
    /\ es_next_stack this' = Some new
    /\ getMetaDataEntry this' "machine" = Some (gs_id g_new)
    /\ global_stacks s' !! old = Some g_old'
    /\ gs_extruders g_old' !! getMetaDataEntry this' "position" = Some self.
Proof.
  intros Hself Hold Hnew Hne.
  pose proof (setNextStack_run s self old this g_old Hself Hold) as Hrun1.
  set (s1 := mkStore _ _ _ _ _) in Hrun1.
  set (this1 := mkExtruderStack (es_id this)
                  (<["machine" := gs_id g_old]> (es_metadata this))
                  (es_containers this) (Some old)).
  assert (Hself1 : extruder_stacks s1 !! self = Some this1)
    by apply lookup_insert_eq.
  assert (Hnew1 : global_stacks s1 !! new = Some g_new).
  { cbn. rewrite lookup_insert_ne by assumption. exact Hnew. }
  pose proof (setNextStack_run s1 self new this1 g_new Hself1 Hnew1) as Hrun2.
  rewrite <- (link_all_snoc self new [old] s s1) in Hrun2.
  2:{ cbn. unfold mbind, M_bind, bind. rewrite Hrun1. reflexivity. }
  eexists _, _, _. split; [exact Hrun2|]. cbn.
  split; [apply lookup_insert_eq|]. cbn.
  split; [reflexivity|].
  split; [apply lookup_insert_eq|].
  split.
  { rewrite lookup_insert_ne by congruence. apply lookup_insert_eq. }
  cbn. unfold getMetaDataEntry. cbn.
  rewrite !position_after_machine. apply lookup_insert_eq.
Qed.

Lemma setNextStack_relink_keeps_old_entry_witness :
  exists (s' : Store) (this' : ExtruderStack) (g_old' : GlobalStack),
    link_all 3 [10; 11] Scenario.store = Some (Return tt, s')
    /\ extruder_stacks s' !! 3 = Some this'
    /\ es_next_stack this' = Some 11
    /\ getMetaDataEntry this' "machine" = Some "M2"
    /\ global_stacks s' !! 10 = Some g_old'
    /\ gs_extruders g_old' !! getMetaDataEntry this' "position" = Some 3.
Proof.
  apply (setNextStack_relink_keeps_old_entry Scenario.store 3 Scenario.spare
           10 11 Scenario.machine Scenario.other_machine).
  - reflexivity.
  - reflexivity.
  - reflexivity.
  - discriminate.
Defined.

(** The sub-unit as [setNextStack] leaves it resolves with the layers and
    the position it had. *)
Lemma getProperty_after_link (s' : Store) (self : eref) (this : ExtruderStack)
    (stack : gref) (g g' : GlobalStack) (id : string)
    (key property_name : string) :
  extruder_stacks s' !! self
  = Some (mkExtruderStack (es_id this) (<["machine" := id]> (es_metadata this))
            (es_containers this) (Some stack)) ->
  global_stacks s' !! stack = Some g' ->
  gs_containers g' = gs_containers g ->
  (truthy (super_getProperty this key "settable_per_extruder") = false ->
   forall fuel,
     getProperty (S fuel) s' self key property_name
     = Some (Return (GlobalStack_getProperty g key property_name)))
  /\ (truthy (super_getProperty this key "settable_per_extruder") = true ->
      redirects this (super_getProperty this key "limit_to_extruder") = false ->
      forall fuel,
        getProperty (S fuel) s' self key property_name
        = Some (Return (super_getProperty this key property_name))).
Proof.
  intros Hself Hg Hlayers.
  set (this' := mkExtruderStack (es_id this) (<["machine" := id]> (es_metadata this))
                  (es_containers this) (Some stack)) in *.
  split.
  - intros Hf fuel.
    rewrite (getProperty_falsy s' self this' stack g' key property_name fuel).
    + unfold GlobalStack_getProperty. rewrite Hlayers. reflexivity.
    + repeat split; [exact Hself | exact Hg].
    + exact Hf.
  - intros Ht Hr fuel.
    apply (getProperty_local s' self this' stack key property_name fuel
             Hself eq_refl Ht).
    unfold redirects, getMetaDataEntry in *. cbn.
    rewrite position_after_machine. exact Hr.
Qed.

(** X10. Linking is what makes resolution work, whatever the sub-unit was
    linked to before: after [setNextStack], a key the sub-unit's own data
    does not mark settable per extruder resolves to the new parent's
    value, and a settable key without redirection to the sub-unit's local
    value, which the link has not changed. *)
Theorem setNextStack_then_getProperty
    (s : Store) (self : eref) (this : ExtruderStack) (stack : gref)
    (g : GlobalStack) (key property_name : string) :
  extruder_stacks s !! self = Some this ->
  global_stacks s !! stack = Some g ->
  exists s',
    setNextStack self stack s = Some (Return tt, s')
    /\ (truthy (super_getProperty this key "settable_per_extruder") = false ->
        forall fuel,
          getProperty (S fuel) s' self key property_name
          = Some (Return (GlobalStack_getProperty g key property_name)))
    /\ (truthy (super_getProperty this key "settable_per_extruder") = true ->
        redirects this (super_getProperty this key "limit_to_extruder") = false ->
        forall fuel,
          getProperty (S fuel) s' self key property_name
          = Some (Return (super_getProperty this key property_name))).
Proof.
  intros Hself Hg.
  eexists. split; [apply (setNextStack_run _ _ _ _ _ Hself Hg)|].
  eapply (getProperty_after_link _ self this stack g _ (gs_id g)).
  - cbn. apply lookup_insert_eq.
  - cbn. apply lookup_insert_eq.
  - reflexivity.
Qed.

Lemma setNextStack_then_getProperty_witness :
  exists s',
    setNextStack 3 10 Scenario.store = Some (Return tt, s')
    /\ getProperty 1 s' 3 "layer_height" "value" = Some (Return (PyStr "0.1")).
Proof.
  destruct (setNextStack_then_getProperty Scenario.store 3 Scenario.spare 10
              Scenario.machine "layer_height" "value" eq_refl eq_refl)
    as (s' & Hrun & Hfalsy & _).
  exists s'. split; [exact Hrun|]. apply (Hfalsy eq_refl 0).
Defined.

(** X11. What is linked can be read back: after [setNextStack],
    [getNextStack] returns the stack linked to and [_getMachineDefinition]
    returns that stack's machine definition, and neither changes the
    store. *)
Theorem setNextStack_then_reads
    (s : Store) (self : eref) (this : ExtruderStack) (stack : gref)
    (g : GlobalStack) :
  extruder_stacks s !! self = Some this ->
  global_stacks s !! stack = Some g ->
  exists s',
    setNextStack self stack s = Some (Return tt, s')
    /\ getNextStack self s' = Some (Return (Some stack), s')
    /\ _getMachineDefinition self s' = Some (Return (gs_definition g), s').
Proof.
  intros Hself Hg.
  eexists. split; [apply (setNextStack_run _ _ _ _ _ Hself Hg)|].
  set (s' := mkStore _ _ _ _ _).
  set (this' := mkExtruderStack (es_id this)
                  (<["machine" := gs_id g]> (es_metadata this))
                  (es_containers this) (Some stack)).
  assert (Hself' : extruder_stacks s' !! self = Some this')
    by apply lookup_insert_eq.
  assert (Hnext : getNextStack self s' = Some (Return (Some stack), s'))
    by apply (getNextStack_run s' self this' Hself').
  split; [exact Hnext|].
  unfold _getMachineDefinition, mbind, M_bind, bind. rewrite Hnext.
  unfold get_global. cbn. rewrite lookup_insert_eq. reflexivity.
Qed.

Lemma setNextStack_then_reads_witness :
  exists s',
    setNextStack 3 11 Scenario.store = Some (Return tt, s')
    /\ getNextStack 3 s' = Some (Return (Some 11), s')
    /\ _getMachineDefinition 3 s' = Some (Return "delta", s').
Proof.
  apply (setNextStack_then_reads Scenario.store 3 Scenario.spare 11
           Scenario.other_machine).
  - reflexivity.
  - reflexivity.
Defined.

(** ** Construction *)

(** X12. A sub-unit as [__init__] makes it carries its identifier and the
    type stamp "extruder_train" and has no parent, so until it is linked
    [getNextStack] returns [None] and both [getProperty], for every key
    and property name, and [_getMachineDefinition] raise
    [NoGlobalStackError] with the message that names the identifier. *)
Theorem init_needs_link
    (s : Store) (self : eref) (container_id key property_name : string) :
  exists (s' : Store) (this : ExtruderStack),
    init self container_id s = Some (Return tt, s')
    /\ extruder_stacks s' !! self = Some this
    /\ es_id this = container_id
    /\ getMetaDataEntry this "type" = Some "extruder_train"
    /\ getNextStack self s' = Some (Return None, s')
    /\ (forall fuel,
          getProperty (S fuel) s' self key property_name
          = Some (Raise (NoGlobalStackError
                           ("Extruder " +:+ container_id
                            +:+ " is missing the next stack!"))))
    /\ _getMachineDefinition self s'
       = Some (Raise (NoGlobalStackError
                        ("Extruder " +:+ container_id
                         +:+ " is missing the next stack!")), s').
Proof.
  eexists _, _. split.
  { unfold init, ContainerStack_init, addMetaDataEntry, mbind, M_bind, bind,
      log_call, get_extruder, set_extruder.
    cbn. rewrite lookup_insert_eq. cbn. rewrite insert_insert_eq. reflexivity. }
  set (this := mkExtruderStack container_id _ _ _).
  set (s' := mkStore _ _ _ _ _).
  assert (Hself : extruder_stacks s' !! self = Some this)
    by apply lookup_insert_eq.
  assert (Hnext : getNextStack self s' = Some (Return None, s'))
    by apply (getNextStack_run s' self this Hself).
  split; [exact Hself|].
  split; [reflexivity|].
  split; [apply lookup_insert_eq|].
  split; [exact Hnext|].
  split.
  - intros fuel. apply (getProperty_unlinked s' self this). split; [exact Hself|reflexivity].
  - unfold _getMachineDefinition, mbind, M_bind, bind. rewrite Hnext.
    unfold get_extruder. rewrite Hself. reflexivity.
Qed.

(** ** Loading: what can be resolved after it *)

(** [deserialize] where the lookup finds nothing. *)
Lemma deserialize_no_match (parse : string -> Persisted) (s : Store)
    (self : eref) (this : ExtruderStack) (contents : string) :
  extruder_stacks s !! self = Some this ->
  registered_with_id s (persisted_machine parse contents) = [] ->
  deserialize parse self contents s
  = Some (Return tt,
          mkStore (<[self := loaded_stack parse this contents]> (extruder_stacks s))
                  (global_stacks s) (container_registry s) (extruder_manager s)
                  (calls s ++ [CallDeserialize self contents])).
Proof.
  intros Hself Hnone.
  pose proof (ContainerStack_deserialize_run parse s self this contents Hself)
    as Hbase.
  rewrite (deserialize_run parse s _ self (loaded_stack parse this contents)
             contents Hbase) by apply lookup_insert_eq.
  change (registered_with_id s (persisted_machine parse contents) = [])
    in Hnone.
  unfold registered_with_id in *. cbn.
  change (getMetaDataEntry_default (loaded_stack parse this contents)
            "machine" EmptyString)
    with (persisted_machine parse contents).
  rewrite Hnone. reflexivity.
Qed.

(** [deserialize] where the lookup finds a stack. *)
Lemma deserialize_match (parse : string -> Persisted) (s : Store)
    (self : eref) (this : ExtruderStack) (contents : string)
    (stack : gref) (rest : list gref) :
  extruder_stacks s !! self = Some this ->
  registered_with_id s (persisted_machine parse contents) = stack :: rest ->
  exists g,
    global_stacks s !! stack = Some g
    /\ deserialize parse self contents s
       = Some (Return tt,
               mkStore
                 (<[self := mkExtruderStack (es_id this)
                              (<["machine" := gs_id g]> (p_metadata (parse contents)))
                              (p_containers (parse contents)) (Some stack)]>
                    (extruder_stacks s))
                 (<[stack := mkGlobalStack (gs_id g) (gs_containers g)
                               (<[p_metadata (parse contents) !! "position" := self]>
                                  (gs_extruders g))
                               (gs_definition g)]> (global_stacks s))
                 (container_registry s)
                 (<[self := gs_id g]> (extruder_manager s))
                 ((calls s ++ [CallDeserialize self contents])
                  ++ link_calls self stack (gs_id g))).
Proof.
  intros Hself Hreg.
  destruct (registered_with_id_allocated s (persisted_machine parse contents) stack)
    as (g & Hg & _); [rewrite Hreg; left; reflexivity|].
  exists g. split; [exact Hg|].
  pose proof (ContainerStack_deserialize_run parse s self this contents Hself)
    as Hbase.
  rewrite (deserialize_run parse s _ self (loaded_stack parse this contents)
             contents Hbase) by apply lookup_insert_eq.
  unfold registered_with_id in *. cbn.
  change (getMetaDataEntry_default (loaded_stack parse this contents)
            "machine" EmptyString)
    with (persisted_machine parse contents).
  rewrite Hreg.
  rewrite (setNextStack_run _ self stack (loaded_stack parse this contents) g)
    by (cbn; first [apply lookup_insert_eq | exact Hg]).
  cbn. rewrite insert_insert_eq. reflexivity.
Qed.

(** X13. Loading makes resolution work with what was loaded: when
    [deserialize] finds a registered stack with the persisted machine
    identifier, then afterwards a key the persisted layers do not mark
    settable per extruder resolves to that stack's value, and a settable
    key whose persisted marker is [None] or "-1" resolves to the value of
    the persisted layers. *)
Theorem deserialize_then_getProperty
    (parse : string -> Persisted) (s : Store) (self : eref)
    (this : ExtruderStack) (contents : string) (stack : gref)
    (rest : list gref) (key property_name : string) :
  extruder_stacks s !! self = Some this ->
  registered_with_id s (persisted_machine parse contents) = stack :: rest ->
  exists (s' : Store) (g : GlobalStack),
    deserialize parse self contents s = Some (Return tt, s')
    /\ global_stacks s !! stack = Some g
    /\ (truthy (ContainerStack_getProperty (p_containers (parse contents))
                  key "settable_per_extruder") = false ->
        forall fuel,
          getProperty (S fuel) s' self key property_name
          = Some (Return (GlobalStack_getProperty g key property_name)))
    /\ (truthy (ContainerStack_getProperty (p_containers (parse contents))
                  key "settable_per_extruder") = true ->
        has_limit (ContainerStack_getProperty (p_containers (parse contents))
                     key "limit_to_extruder") = false ->
        forall fuel,
          getProperty (S fuel) s' self key property_name
          = Some (Return (ContainerStack_getProperty
                            (p_containers (parse contents)) key property_name))).
Proof.
  intros Hself Hreg.
  destruct (deserialize_match parse s self this contents stack rest Hself Hreg)
    as (g & Hg & Hrun).
  eexists _, g. split; [exact Hrun|]. split; [exact Hg|].
  edestruct (getProperty_after_link
               (mkStore
                  (<[self := mkExtruderStack (es_id this)
                               (<["machine" := gs_id g]> (p_metadata (parse contents)))
                               (p_containers (parse contents)) (Some stack)]>
                     (extruder_stacks s))
                  (<[stack := mkGlobalStack (gs_id g) (gs_containers g)
                                (<[p_metadata (parse contents) !! "position" := self]>
                                   (gs_extruders g))
                                (gs_definition g)]> (global_stacks s))
                  (container_registry s)
                  (<[self := gs_id g]> (extruder_manager s))
                  ((calls s ++ [CallDeserialize self contents])
                   ++ link_calls self stack (gs_id g)))
               self (loaded_stack parse this contents) stack g
               (mkGlobalStack (gs_id g) (gs_containers g)
                  (<[p_metadata (parse contents) !! "position" := self]>
                     (gs_extruders g))
                  (gs_definition g))
               (gs_id g) key property_name) as [Hfalsy Hlocal].
  - cbn. apply lookup_insert_eq.
  - cbn. apply lookup_insert_eq.
  - reflexivity.
  - split; [exact Hfalsy|].
    intros Ht Hlim. apply (Hlocal Ht).
    unfold redirects.
    change (super_getProperty (loaded_stack parse this contents) key
              "limit_to_extruder")
      with (ContainerStack_getProperty (p_containers (parse contents)) key
              "limit_to_extruder").
    rewrite Hlim. reflexivity.
Qed.

Lemma deserialize_then_getProperty_witness :
  exists (s' : Store) (g : GlobalStack),
    deserialize Scenario.parse 3 "[metadata] position = 2, machine = M1"
      Scenario.store
    = Some (Return tt, s')
    /\ getProperty 1 s' 3 "layer_height" "value" = Some (Return (PyStr "0.1"))
    /\ getProperty 1 s' 3 "wall_thickness" "value" = Some (Return (PyStr "0.8")).
Proof.
  destruct (deserialize_then_getProperty Scenario.parse Scenario.store 3
              Scenario.spare "[metadata] position = 2, machine = M1" 10 []
              "layer_height" "value" eq_refl eq_refl)
    as (s' & g & Hrun & Hg & Hfalsy & _).
  destruct (deserialize_then_getProperty Scenario.parse Scenario.store 3
              Scenario.spare "[metadata] position = 2, machine = M1" 10 []
              "wall_thickness" "value" eq_refl eq_refl)
    as (s'' & g' & Hrun' & _ & _ & Hlocal).
  assert (Hsame : s'' = s') by congruence. subst s''.
  assert (Hmachine : g = Scenario.machine).
  { vm_compute in Hg. injection Hg as <-. reflexivity. }
  exists s', g. split; [exact Hrun|]. split.
  - rewrite (Hfalsy eq_refl 0), Hmachine. reflexivity.
  - rewrite (Hlocal eq_refl eq_refl 0). reflexivity.
Defined.

(** X14. Loading succeeds without a parent, and resolution then fails:
    when [deserialize] of a sub-unit that has no parent finds no
    registered stack with the persisted machine identifier, it returns
    normally and makes no call of the link, and afterwards [getProperty]
    raises [NoGlobalStackError], for every key and property name, whatever
    the persisted layers hold. *)
Theorem deserialize_without_match_then_getProperty
    (parse : string -> Persisted) (s : Store) (self : eref)
    (this : ExtruderStack) (contents : string) :
  unlinked s self this ->
  registered_with_id s (persisted_machine parse contents) = [] ->
  exists s',
    deserialize parse self contents s = Some (Return tt, s')
    /\ calls s' = (calls s ++ [CallDeserialize self contents])%list
    /\ forall key property_name fuel,
         getProperty (S fuel) s' self key property_name
         = Some (Raise (NoGlobalStackError (missing_next_stack (es_id this)))).
Proof.
  intros [Hself Hnext] Hnone.
  eexists. split; [apply (deserialize_no_match _ _ _ _ _ Hself Hnone)|].
  split; [reflexivity|].
  intros key property_name fuel.
  apply (getProperty_unlinked _ self (loaded_stack parse this contents)).
  split; [apply lookup_insert_eq | exact Hnext].
Qed.

Lemma deserialize_without_match_then_getProperty_witness :
  exists s',
    deserialize Scenario.parse 3 "[metadata]" Scenario.store = Some (Return tt, s')
    /\ calls s' = [CallDeserialize 3 "[metadata]"]
    /\ forall key property_name fuel,
         getProperty (S fuel) s' 3 key property_name
         = Some (Raise (NoGlobalStackError
                          "Extruder spare is missing the next stack!")).
Proof.
  apply (deserialize_without_match_then_getProperty Scenario.parse
           Scenario.store 3 Scenario.spare "[metadata]").
  - split; reflexivity.
  - reflexivity.
Defined.

(** X15. A persisted text without [machine] entry is looked up under the
    empty identifier: [deserialize] then links to the first registered
    stack whose identifier is the empty string, and where no registered
    stack has the empty identifier it leaves the parent reference as it
    was. *)
Theorem deserialize_without_machine_entry
    (parse : string -> Persisted) (s : Store) (self : eref)
    (this : ExtruderStack) (contents : string) :
  extruder_stacks s !! self = Some this ->
  p_metadata (parse contents) !! "machine" = None ->
  (forall stack rest,
      registered_with_id s EmptyString = stack :: rest ->
      exists s',
        deserialize parse self contents s = Some (Return tt, s')
        /\ getNextStack self s' = Some (Return (Some stack), s'))
  /\ (registered_with_id s EmptyString = [] ->
      exists s',
        deserialize parse self contents s = Some (Return tt, s')
        /\ getNextStack self s' = Some (Return (es_next_stack this), s')).
Proof.
  intros Hself Hmissing.
  assert (Hid : persisted_machine parse contents = EmptyString).
  { unfold persisted_machine. rewrite Hmissing. reflexivity. }
  split.
  - intros stack rest Hreg. rewrite <- Hid in Hreg.
    destruct (deserialize_match parse s self this contents stack rest Hself Hreg)
      as (g & Hg & Hrun).
    eexists. split; [exact Hrun|].
    apply (getNextStack_run _ self
             (mkExtruderStack (es_id this)
                (<["machine" := gs_id g]> (p_metadata (parse contents)))
                (p_containers (parse contents)) (Some stack))).
    cbn. apply lookup_insert_eq.
  - intros Hnone. rewrite <- Hid in Hnone.
    eexists. split; [apply (deserialize_no_match _ _ _ _ _ Hself Hnone)|].
    apply (getNextStack_run _ self (loaded_stack parse this contents)).
    cbn. apply lookup_insert_eq.
Qed.

Lemma deserialize_without_machine_entry_witness :
  exists s',
    deserialize Scenario.parse 1 "[metadata]" Scenario.store = Some (Return tt, s')
    /\ getNextStack 1 s' = Some (Return (Some 10), s').
Proof.
  destruct (deserialize_without_machine_entry Scenario.parse Scenario.store 1
              Scenario.left "[metadata]" eq_refl eq_refl) as [_ Hnone].
  apply Hnone. reflexivity.
Defined.

(** ** Property resolution: where errors and [None] come from *)

(** X16. The only error [getProperty] raises itself is the missing parent,
    of the sub-unit asked or of one it is redirected to: when a call ends
    with an exception (the exhaustion of Python's recursion depth set
    apart, which calls that end do not reach), a chain of redirections for
    the key (of length zero or more) leads from the sub-unit to a sub-unit
    that has no parent, and the exception is the [NoGlobalStackError] that
    names this one. *)
Theorem getProperty_raises_only_missing_parent
    (s : Store) (key property_name : string) (a : eref) (e : Exception) :
  getProperty_ends s a key property_name (Raise e) ->
  exists (b : eref) (this_b : ExtruderStack),
    rtc (redirects_to s key) a b
    /\ unlinked s b this_b
    /\ e = NoGlobalStackError (missing_next_stack (es_id this_b)).
Proof.
  intros [fuel Hraise]. revert a Hraise.
  induction fuel as [|fuel IH]; intros a Hraise; [discriminate|].
  simpl in Hraise.
  destruct (extruder_stacks s !! a) as [this|] eqn:Hself; simpl in Hraise;
    [|discriminate].
  destruct (es_next_stack this) as [next|] eqn:Hnext.
  2:{ injection Hraise as <-. exists a, this.
      split; [apply rtc_refl|]. split; [split; assumption | reflexivity]. }
  destruct (truthy (super_getProperty this key "settable_per_extruder")) eqn:Ht;
    simpl in Hraise.
  2:{ destruct (global_stacks s !! next); discriminate. }
  destruct (redirects this (super_getProperty this key "limit_to_extruder"))
    eqn:Hr; [|discriminate].
  destruct (global_stacks s !! next) as [g|] eqn:Hg; simpl in Hraise;
    [|discriminate].
  destruct (gs_extruders g !! _) as [sibling|] eqn:Hsib; [|discriminate].
  destruct (getProperty fuel s sibling key property_name) as [[v|e']|] eqn:Hcall;
    simpl in Hraise; [destruct (is_not_None v); discriminate | | discriminate].
  injection Hraise as <-.
  destruct (IH sibling Hcall) as (b & this_b & Hchain & Hu & He).
  exists b, this_b. split; [|split; assumption].
  apply (rtc_l _ a sibling b); [|exact Hchain].
  exists this, next, g. repeat split; assumption.
Qed.

Lemma getProperty_raises_only_missing_parent_witness :
  exists (b : eref) (this_b : ExtruderStack),
    rtc (redirects_to Workshop.store "orphan") 1 b
    /\ unlinked Workshop.store b this_b
    /\ NoGlobalStackError "Extruder d is missing the next stack!"
       = NoGlobalStackError (missing_next_stack (es_id this_b)).
Proof.
  apply (getProperty_raises_only_missing_parent Workshop.store "orphan" "value" 1).
  exists 2. reflexivity.
Defined.

(** X17. A value taken from a sibling is never [None]: for a key the
    sub-unit's own data marks settable per extruder, [getProperty] returns
    [None] only when the sub-unit's own local value is [None]. *)
Theorem getProperty_settable_None_is_local
    (s : Store) (self : eref) (this : ExtruderStack)
    (key property_name : string) :
  extruder_stacks s !! self = Some this ->
  truthy (super_getProperty this key "settable_per_extruder") = true ->
  getProperty_ends s self key property_name (Return PyNone) ->
  super_getProperty this key property_name = PyNone.
Proof.
  intros Hself Ht [fuel Hcall].
  destruct fuel as [|fuel]; [discriminate|].
  simpl in Hcall. rewrite Hself in Hcall. simpl in Hcall.
  destruct (es_next_stack this) as [next|]; [|discriminate].
  rewrite Ht in Hcall. simpl in Hcall.
  destruct (redirects this _); [|congruence].
  destruct (global_stacks s !! next) as [g|]; simpl in Hcall; [|discriminate].
  destruct (gs_extruders g !! _) as [sibling|]; [|congruence].
  destruct (getProperty fuel s sibling key property_name) as [[v|e]|];
    simpl in Hcall; [|discriminate..].
  destruct v; simpl in Hcall; congruence.
Qed.

Lemma getProperty_settable_None_is_local_witness :
  super_getProperty Workshop.c "chain" "colour" = PyNone.
Proof.
  apply (getProperty_settable_None_is_local Workshop.store 3 Workshop.c
           "chain" "colour").
  - reflexivity.
  - reflexivity.
  - exists 1. reflexivity.
Defined.
